(** * Verification of minio's request-authentication front end

    Source: [auth-handler.go] (package [main]).  The file classifies an
    incoming HTTP request by the authentication scheme it claims
    ([getRequestAuthType]), verifies AWS Signature V4 requests through the
    [signature4] package ([isSignV4ReqAuthenticated]) and dispatches the
    request to the next handler or rejects it ([authHandler.ServeHTTP]).

    The embedding is shallow: every Go function is a Rocq function with
    the same name; the calls the code makes on its collaborators (the
    response writer, the next handler, the JWT check, the signature
    verifier, the logger) are threaded through a small state monad that
    records them in order. *)

From Stdlib Require Import ZArith Lia Ascii String List Bool.
From stdpp Require Import base option gmap strings list.

Import ListNotations.
Local Open Scope Z_scope.

(** ** Go's [strings] package *)

(** [strings.HasPrefix(s, prefix)]: [s] begins with [prefix]. *)
Fixpoint HasPrefix (s prefix : string) {struct prefix} : bool :=
  match prefix with
  | EmptyString => true
  | String c prefix' =>
      match s with
      | EmptyString => false
      | String d s' => if Ascii.eqb d c then HasPrefix s' prefix' else false
      end
  end.

(** [strings.Contains(s, substr)]: [substr] occurs somewhere within [s]. *)
Fixpoint Contains (s substr : string) {struct s} : bool :=
  HasPrefix s substr ||
  match s with
  | EmptyString => false
  | String _ s' => Contains s' substr
  end.

(** ** Go's [net/http] and [net/url] data, as far as this file reads it *)

(** [url.Values] and [http.Header] are both [map[string][]string]. *)
Abbreviation url_Values := (gmap string (list string)).
Abbreviation http_Header := (gmap string (list string)).

(** [*url.URL].  [Query] holds the result of the method [u.Query()], the
    parsed query string: one entry per parameter name. *)
Record url_URL : Type := {
  Path : string;
  Query : url_Values
}.

(** [*http.Request].  The request is only read, never modified. *)
Record http_Request : Type := {
  Method : string;
  URL : url_URL;
  Header : http_Header;
  Body : list Byte.byte
}.

(** The request with another body. *)
Definition withBody (r : http_Request) (b : list Byte.byte) : http_Request :=
  {| Method := Method r; URL := URL r; Header := Header r; Body := b |}.

(** [h.Get(key)]: the first value stored under [key], or the empty string
    when there is none.  Go canonicalises [key] first; the two keys this
    file asks for, [Authorization] and [Content-Type], are in canonical
    form already, so the lookup uses them as they are. *)
Definition Header_Get (h : http_Header) (key : string) : string :=
  match h !! key with
  | Some (v :: _) => v
  | _ => EmptyString
  end.

(** [_, ok := m[key]]: the [ok] of a Go map lookup. *)
Definition has_key (m : gmap string (list string)) (key : string) : bool :=
  match m !! key with
  | Some _ => true
  | None => false
  end.

(** ** The request predicates *)

Definition signV4Algorithm : string := "AWS4-HMAC-SHA256".
Definition jwtAlgorithm : string := "Bearer".

(** Verify if request has JWT. *)
Definition isRequestJWT (r : http_Request) : bool :=
  if has_key (Header r) "Authorization" then
    if HasPrefix (Header_Get (Header r) "Authorization") jwtAlgorithm then true
    else false
  else false.

(** Verify if request has AWS Signature Version '4'. *)
Definition isRequestSignatureV4 (r : http_Request) : bool :=
  if has_key (Header r) "Authorization" then
    if HasPrefix (Header_Get (Header r) "Authorization") signV4Algorithm then true
    else false
  else false.

(** Verify if request has AWS Presignature Version '4'. *)
Definition isRequestPresignedSignatureV4 (r : http_Request) : bool :=
  if has_key (Query (URL r)) "X-Amz-Credential" then true else false.

(** Verify if request has AWS Post policy Signature Version '4'. *)
Definition isRequestPostPolicySignatureV4 (r : http_Request) : bool :=
  if has_key (Header r) "Content-Type" then
    if Contains (Header_Get (Header r) "Content-Type") "multipart/form-data"
       && String.eqb (Method r) "POST"
    then true
    else false
  else false.

(** Verify if incoming request is anonymous. *)
Definition isRequestAnonymous (r : http_Request) : bool :=
  if isRequestJWT r || isRequestSignatureV4 r
     || isRequestPresignedSignatureV4 r || isRequestPostPolicySignatureV4 r
  then false
  else true.

(** ** The classifier *)

(** Authorization type: the list of all supported auth types. *)
Inductive authType : Type :=
| authTypeUnknown
| authTypeAnonymous
| authTypePresigned
| authTypePostPolicy
| authTypeSigned
| authTypeJWT.

#[global] Instance authType_eq_dec : EqDecision authType.
Proof. solve_decision. Defined.

(** Get request authentication type. *)
Definition getRequestAuthType (r : http_Request) : authType :=
  if isRequestSignatureV4 r then authTypeSigned
  else if isRequestPresignedSignatureV4 r then authTypePresigned
  else if isRequestJWT r then authTypeJWT
  else if isRequestPostPolicySignatureV4 r then authTypePostPolicy
  else if negb (has_key (Header r) "Authorization") then authTypeAnonymous
  else authTypeUnknown.

(** ** Go's [crypto/sha256] and [encoding/hex] *)

(** [[]byte(s)]: the bytes of a Go string. *)
Definition bytes_of_string (s : string) : list Byte.byte :=
  list_byte_of_string s.

Definition byte_to_Z (b : Byte.byte) : Z := Z.of_N (Byte.to_N b).

Definition byte_of_Z (z : Z) : Byte.byte :=
  match Byte.of_N (Z.to_N (Z.land z 255)) with
  | Some b => b
  | None => Byte.x00
  end.

Module sha256.

(** Words are Go's [uint32]: a [Z] reduced modulo [2^32] after every
    operation that can leave the range. *)
Definition mask32 : Z := 0xffffffff.
Definition u32 (x : Z) : Z := Z.land x mask32.
Definition add32 (x y : Z) : Z := u32 (x + y).
Definition not32 (x : Z) : Z := Z.lxor x mask32.
Definition rotr (n x : Z) : Z :=
  Z.lor (Z.shiftr x n) (u32 (Z.shiftl x (32 - n))).

Definition Ch (x y z : Z) : Z := Z.lxor (Z.land x y) (Z.land (not32 x) z).
Definition Maj (x y z : Z) : Z :=
  Z.lxor (Z.lxor (Z.land x y) (Z.land x z)) (Z.land y z).
Definition bsig0 (x : Z) : Z := Z.lxor (Z.lxor (rotr 2 x) (rotr 13 x)) (rotr 22 x).
Definition bsig1 (x : Z) : Z := Z.lxor (Z.lxor (rotr 6 x) (rotr 11 x)) (rotr 25 x).
Definition ssig0 (x : Z) : Z := Z.lxor (Z.lxor (rotr 7 x) (rotr 18 x)) (Z.shiftr x 3).
Definition ssig1 (x : Z) : Z := Z.lxor (Z.lxor (rotr 17 x) (rotr 19 x)) (Z.shiftr x 10).

Definition chunk : nat := 64.

Definition init : list Z :=
  [0x6a09e667; 0xbb67ae85; 0x3c6ef372; 0xa54ff53a;
   0x510e527f; 0x9b05688c; 0x1f83d9ab; 0x5be0cd19].

(** The round constant [_K[t]]. *)
Definition _K (t : nat) : Z :=
  match t with
  | 0%nat => 0x428a2f98
  | 1%nat => 0x71374491
  | 2%nat => 0xb5c0fbcf
  | 3%nat => 0xe9b5dba5
  | 4%nat => 0x3956c25b
  | 5%nat => 0x59f111f1
  | 6%nat => 0x923f82a4
  | 7%nat => 0xab1c5ed5
  | 8%nat => 0xd807aa98
  | 9%nat => 0x12835b01
  | 10%nat => 0x243185be
  | 11%nat => 0x550c7dc3
  | 12%nat => 0x72be5d74
  | 13%nat => 0x80deb1fe
  | 14%nat => 0x9bdc06a7
  | 15%nat => 0xc19bf174
  | 16%nat => 0xe49b69c1
  | 17%nat => 0xefbe4786
  | 18%nat => 0x0fc19dc6
  | 19%nat => 0x240ca1cc
  | 20%nat => 0x2de92c6f
  | 21%nat => 0x4a7484aa
  | 22%nat => 0x5cb0a9dc
  | 23%nat => 0x76f988da
  | 24%nat => 0x983e5152
  | 25%nat => 0xa831c66d
  | 26%nat => 0xb00327c8
  | 27%nat => 0xbf597fc7
  | 28%nat => 0xc6e00bf3
  | 29%nat => 0xd5a79147
  | 30%nat => 0x06ca6351
  | 31%nat => 0x14292967
  | 32%nat => 0x27b70a85
  | 33%nat => 0x2e1b2138
  | 34%nat => 0x4d2c6dfc
  | 35%nat => 0x53380d13
  | 36%nat => 0x650a7354
  | 37%nat => 0x766a0abb
  | 38%nat => 0x81c2c92e
  | 39%nat => 0x92722c85
  | 40%nat => 0xa2bfe8a1
  | 41%nat => 0xa81a664b
  | 42%nat => 0xc24b8b70
  | 43%nat => 0xc76c51a3
  | 44%nat => 0xd192e819
  | 45%nat => 0xd6990624
  | 46%nat => 0xf40e3585
  | 47%nat => 0x106aa070
  | 48%nat => 0x19a4c116
  | 49%nat => 0x1e376c08
  | 50%nat => 0x2748774c
  | 51%nat => 0x34b0bcb5
  | 52%nat => 0x391c0cb3
  | 53%nat => 0x4ed8aa4a
  | 54%nat => 0x5b9cca4f
  | 55%nat => 0x682e6ff3
  | 56%nat => 0x748f82ee
  | 57%nat => 0x78a5636f
  | 58%nat => 0x84c87814
  | 59%nat => 0x8cc70208
  | 60%nat => 0x90befffa
  | 61%nat => 0xa4506ceb
  | 62%nat => 0xbef9a3f7
  | 63%nat => 0xc67178f2
  | _ => 0
  end.

(** Big-endian words of a block, four bytes each. *)
Fixpoint words (p : list Z) : list Z :=
  match p with
  | b0 :: b1 :: b2 :: b3 :: rest =>
      Z.lor (Z.lor (Z.lor (Z.shiftl b0 24) (Z.shiftl b1 16)) (Z.shiftl b2 8)) b3
      :: words rest
  | _ => []
  end.

(** The message schedule: [n] more words after the ones in [w]. *)
Fixpoint schedule (n : nat) (w : list Z) : list Z :=
  match n with
  | O => w
  | S n' =>
      let i := length w in
      let v1 := List.nth (i - 2) w 0 in
      let v2 := List.nth (i - 15) w 0 in
      let x := add32 (add32 (add32 (ssig1 v1) (List.nth (i - 7) w 0)) (ssig0 v2))
                     (List.nth (i - 16) w 0) in
      schedule n' (w ++ [x])
  end.

Record regs : Type := { ra : Z; rb : Z; rc : Z; rd : Z; re : Z; rf : Z; rg : Z; rh : Z }.

Definition round (s : regs) (kw : Z * Z) : regs :=
  let t1 := add32 (add32 (add32 (add32 (rh s) (bsig1 (re s))) (Ch (re s) (rf s) (rg s)))
                         (fst kw)) (snd kw) in
  let t2 := add32 (bsig0 (ra s)) (Maj (ra s) (rb s) (rc s)) in
  {| ra := add32 t1 t2; rb := ra s; rc := rb s; rd := rc s;
     re := add32 (rd s) t1; rf := re s; rg := rf s; rh := rg s |}.

Definition regs_of (h : list Z) : regs :=
  {| ra := List.nth 0 h 0; rb := List.nth 1 h 0; rc := List.nth 2 h 0; rd := List.nth 3 h 0;
     re := List.nth 4 h 0; rf := List.nth 5 h 0; rg := List.nth 6 h 0; rh := List.nth 7 h 0 |}.

Definition list_of (s : regs) : list Z :=
  [ra s; rb s; rc s; rd s; re s; rf s; rg s; rh s].

(** One 64-byte block folded into the chaining value [h]. *)
Definition block1 (h : list Z) (p : list Z) : list Z :=
  let w := schedule 48 (words p) in
  let s := List.fold_left round (List.combine (List.map _K (List.seq 0 64)) w) (regs_of h) in
  List.map (fun xy => add32 (fst xy) (snd xy)) (List.combine h (list_of s)).

(** [block(dig, p)]: all whole blocks of [p], in order. *)
Fixpoint block (fuel : nat) (h : list Z) (p : list Z) : list Z :=
  match fuel with
  | O => h
  | S fuel' =>
      if (length p <? chunk)%nat then h
      else block fuel' (block1 h (List.firstn chunk p)) (List.skipn chunk p)
  end.

Definition be_bytes (n : nat) (x : Z) : list Z :=
  List.map (fun i => Z.land (Z.shiftr x (8 * Z.of_nat i)) 255) (List.rev (List.seq 0 n)).

(** The padding appended by [checkSum]: a [0x80] byte, zeros up to 56
    modulo 64, and the length in bits as eight big-endian bytes. *)
Definition padding (len : nat) : list Z :=
  let m := (len mod 64)%nat in
  let zeros := if (m <? 56)%nat then (56 - m - 1)%nat else (64 + 56 - m - 1)%nat in
  0x80 :: List.repeat 0 zeros ++ be_bytes 8 (Z.shiftl (Z.of_nat len) 3).

(** [sha256.Sum256(data)]: the 32-byte SHA-256 checksum of [data]. *)
Definition Sum256 (data : list Byte.byte) : list Byte.byte :=
  let p := List.map byte_to_Z data ++ padding (length data) in
  let h := block (length p) init p in
  List.map byte_of_Z (List.concat (List.map (be_bytes 4) h)).

End sha256.

Module hex.

Definition hextable : string := "0123456789abcdef".

Definition digit (n : Z) : ascii :=
  match String.get (Z.to_nat n) hextable with
  | Some c => c
  | None => "0"%char
  end.

(** [hex.EncodeToString(src)]: two lower-case digits per byte. *)
Fixpoint EncodeToString (src : list Byte.byte) : string :=
  match src with
  | [] => EmptyString
  | v :: rest =>
      String (digit (Z.shiftr (byte_to_Z v) 4))
        (String (digit (Z.land (byte_to_Z v) 0x0f)) (EncodeToString rest))
  end.

End hex.

(** ** Error codes and errors *)

(** The error codes live in a module of their own because [None] is also
    the empty [option]. *)
Module APIError.

(** Modelled from the spec: the API error codes ([None], [AccessDenied],
    [SignatureDoesNotMatch], [InternalError], [SignatureVersionNotSupported])
    are integer constants of the repository declared outside
    [auth-handler.go]; the closed enumeration of the specification's data
    model stands for them. *)
Inductive ErrorCode : Type :=
| None
| SignatureDoesNotMatch
| InternalError
| AccessDenied
| SignatureVersionNotSupported.

End APIError.

Abbreviation ErrorCode := APIError.ErrorCode.

#[global] Instance ErrorCode_eq_dec : EqDecision ErrorCode.
Proof. solve_decision. Defined.

(** [*probe.Error]: the error value of the verifier, [nil] being [None].
    This file only tests it against [nil] and logs it; a cause and a call
    trace stand for its contents. *)
Record probe_Error : Type := { Cause : string; CallTrace : list string }.

(** [err.Trace()]: the same error with the call site added to its trace. *)
Definition Trace (err : probe_Error) : probe_Error :=
  {| Cause := Cause err; CallTrace := "isSignV4ReqAuthenticated"%string :: CallTrace err |}.

(** ** The response writer *)

(** The part of an [http.ResponseWriter] this layer can change: whether
    the status line has been written, the status, and the body so far. *)
Record ResponseWriter : Type := {
  wroteHeader : bool;
  status : Z;
  body : list Byte.byte
}.

(** A writer nothing has been written to yet. *)
Definition freshWriter : ResponseWriter :=
  {| wroteHeader := false; status := 0; body := [] |}.

Definition StatusUnauthorized : Z := 401.

(** [w.WriteHeader(code)]: sets the status once; a later call is ignored.
    The body is not touched. *)
Definition WriteHeader (w : ResponseWriter) (code : Z) : ResponseWriter :=
  if wroteHeader w then w
  else {| wroteHeader := true; status := code; body := body w |}.

(** ** Calls on collaborators, and the monad that records them *)

Inductive Call : Type :=
| CallHandlerServeHTTP (r : http_Request)
| CallIsJWTReqAuthenticated (r : http_Request)
| CallWriteHeader (code : Z)
| CallWriteErrorResponse (r : http_Request) (code : ErrorCode) (resource : string)
| CallSetHTTPRequestToVerify (r : http_Request)
| CallDoesSignatureMatch (hashedPayload : string)
| CallDoesPresignedSignatureMatch
| CallErrorIf (err : probe_Error) (msg : string).

(** The state a request is served in: the response writer and the calls
    made so far, oldest first. *)
Record World : Type := { writer : ResponseWriter; calls : list Call }.

Definition M (A : Type) : Type := World -> A * World.

Definition ret {A : Type} (a : A) : M A := fun s => (a, s).

Definition bind {A B : Type} (m : M A) (k : A -> M B) : M B :=
  fun s => let (a, s') := m s in k a s'.

Declare Scope go_scope.
Delimit Scope go_scope with go.
Notation "x <- c1 ;; c2" := (bind c1 (fun x => c2))
  (at level 100, c1 at next level, right associativity) : go_scope.
Notation "c1 ;;; c2" := (bind c1 (fun _ => c2))
  (at level 100, right associativity) : go_scope.

(** Record one call. *)
Definition call (c : Call) : M unit :=
  fun s => (tt, {| writer := writer s; calls := calls s ++ [c] |}).

(** Let a collaborator act on the response writer. *)
Definition onWriter (f : ResponseWriter -> ResponseWriter) : M unit :=
  fun s => (tt, {| writer := f (writer s); calls := calls s |}).

(** Serve from a given writer with an empty record of calls. *)
Definition serve {A : Type} (m : M A) (w : ResponseWriter) : A * World :=
  m {| writer := w; calls := [] |}.

Definition isHandlerCall (c : Call) : bool :=
  match c with CallHandlerServeHTTP _ => true | _ => false end.

(** A call that consults a verifier: the token check or one of the two
    signature-matching operations. *)
Definition isVerifierCall (c : Call) : bool :=
  match c with
  | CallIsJWTReqAuthenticated _ | CallSetHTTPRequestToVerify _
  | CallDoesSignatureMatch _ | CallDoesPresignedSignatureMatch => true
  | _ => false
  end.

Definition isSignatureMatchCall (c : Call) : bool :=
  match c with
  | CallDoesSignatureMatch _ | CallDoesPresignedSignatureMatch => true
  | _ => false
  end.

(** How many times the next handler was invoked. *)
Definition handlerInvocations (cs : list Call) : nat :=
  length (List.filter isHandlerCall cs).

(** ** The signature verifier, [signature4.Sign] *)

(** The three methods of [*signature4.Sign] this file calls.  The package
    is outside this file, so the verifier is an interface here. *)
Class SignatureVerifier (Sign : Type) : Type := {
  Sign_SetHTTPRequestToVerify : Sign -> http_Request -> Sign;
  Sign_DoesSignatureMatch : Sign -> string -> bool * option probe_Error;
  Sign_DoesPresignedSignatureMatch : Sign -> bool * option probe_Error
}.

Section Verification.

Context {Sign : Type} `{SignatureVerifier Sign}.

Local Open Scope go_scope.

Definition SetHTTPRequestToVerify (sign : Sign) (r : http_Request) : M Sign :=
  call (CallSetHTTPRequestToVerify r) ;;;
  ret (Sign_SetHTTPRequestToVerify sign r).

Definition DoesSignatureMatch (auth : Sign) (hashedPayload : string)
  : M (bool * option probe_Error) :=
  call (CallDoesSignatureMatch hashedPayload) ;;;
  ret (Sign_DoesSignatureMatch auth hashedPayload).

Definition DoesPresignedSignatureMatch (auth : Sign)
  : M (bool * option probe_Error) :=
  call CallDoesPresignedSignatureMatch ;;;
  ret (Sign_DoesPresignedSignatureMatch auth).

(** [errorIf(err, msg, nil)]: logs the error; no other effect. *)
Definition errorIf (err : probe_Error) (msg : string) : M unit :=
  call (CallErrorIf err msg).

(** Verify if request has valid AWS Signature Version '4'. *)
Definition isSignV4ReqAuthenticated (sign : Sign) (r : http_Request)
  : M (bool * ErrorCode) :=
  auth <- SetHTTPRequestToVerify sign r ;;
  if isRequestSignatureV4 r then
    let dummyPayload := sha256.Sum256 (bytes_of_string "") in
    res <- DoesSignatureMatch auth (hex.EncodeToString dummyPayload) ;;
    let (ok, err) := res in
    match err with
    | Some e =>
        errorIf (Trace e) "Signature verification failed." ;;;
        ret (false, APIError.InternalError)
    | Datatypes.None =>
        if negb ok then ret (false, APIError.SignatureDoesNotMatch)
        else ret (ok, APIError.None)
    end
  else if isRequestPresignedSignatureV4 r then
    res <- DoesPresignedSignatureMatch auth ;;
    let (ok, err) := res in
    match err with
    | Some e =>
        errorIf (Trace e) "Presigned signature verification failed." ;;;
        ret (false, APIError.InternalError)
    | Datatypes.None =>
        if negb ok then ret (false, APIError.SignatureDoesNotMatch)
        else ret (ok, APIError.None)
    end
  else ret (false, APIError.AccessDenied).

End Verification.

(** ** The dispatch middleware *)

(** What an [http.Handler] does to the response when it serves a request. *)
Definition http_Handler : Type := ResponseWriter -> http_Request -> ResponseWriter.

(** authHandler - handles all the incoming authorization headers and
    validates them if possible. *)
Record authHandler : Type := { handler : http_Handler }.

(** setAuthHandler to validate authorization header for the incoming
    request. *)
Definition setAuthHandler (h : http_Handler) : authHandler := {| handler := h |}.

Section Dispatch.

(** The token verifier and the error-response serialiser are functions
    of the repository declared outside this file. *)
Variable isJWTReqAuthenticated_ext : http_Request -> bool.
Variable writeErrorResponse_ext :
  ResponseWriter -> http_Request -> ErrorCode -> string -> ResponseWriter.

Local Open Scope go_scope.

(** [a.handler.ServeHTTP(w, r)] *)
Definition handler_ServeHTTP (h : http_Handler) (r : http_Request) : M unit :=
  call (CallHandlerServeHTTP r) ;;;
  onWriter (fun w => h w r).

(** [isJWTReqAuthenticated(r)] *)
Definition isJWTReqAuthenticated (r : http_Request) : M bool :=
  call (CallIsJWTReqAuthenticated r) ;;;
  ret (isJWTReqAuthenticated_ext r).

(** [w.WriteHeader(code)] *)
Definition w_WriteHeader (code : Z) : M unit :=
  call (CallWriteHeader code) ;;;
  onWriter (fun w => WriteHeader w code).

(** [writeErrorResponse(w, r, code, resource)] *)
Definition writeErrorResponse (r : http_Request) (code : ErrorCode)
  (resource : string) : M unit :=
  call (CallWriteErrorResponse r code resource) ;;;
  onWriter (fun w => writeErrorResponse_ext w r code resource).

(** handler for validating incoming authorization headers. *)
Definition ServeHTTP (a : authHandler) (r : http_Request) : M unit :=
  match getRequestAuthType r with
  | authTypeAnonymous | authTypePresigned | authTypeSigned | authTypePostPolicy =>
      (* Let top level caller validate for anonymous and known signed
         requests. *)
      handler_ServeHTTP (handler a) r
  | authTypeJWT =>
      (* Validate Authorization header if its valid for JWT request. *)
      ok <- isJWTReqAuthenticated r ;;
      if negb ok then w_WriteHeader StatusUnauthorized
      else handler_ServeHTTP (handler a) r
  | authTypeUnknown =>
      writeErrorResponse r APIError.SignatureVersionNotSupported (Path (URL r))
  end.

End Dispatch.

(** ** The resolution order, as the specification words it *)

Module Spec.

(** An [Authorization] header is present and its value starts with the
    literal prefix [AWS4-HMAC-SHA256]. *)
Definition has_v4_signature_header (r : http_Request) : bool :=
  match Header r !! "Authorization"%string with
  | Some _ => HasPrefix (Header_Get (Header r) "Authorization") "AWS4-HMAC-SHA256"
  | Datatypes.None => false
  end.

(** A query parameter named [X-Amz-Credential] is present. *)
Definition has_presigned_query (r : http_Request) : bool :=
  bool_decide (is_Some (Query (URL r) !! "X-Amz-Credential"%string)).

(** An [Authorization] header is present and its value starts with the
    literal prefix [Bearer]. *)
Definition has_bearer_header (r : http_Request) : bool :=
  match Header r !! "Authorization"%string with
  | Some _ => HasPrefix (Header_Get (Header r) "Authorization") "Bearer"
  | Datatypes.None => false
  end.

(** The request method is [POST] and the [Content-Type] header is
    present and contains the substring [multipart/form-data]. *)
Definition has_form_policy_body (r : http_Request) : bool :=
  String.eqb (Method r) "POST" &&
  match Header r !! "Content-Type"%string with
  | Some _ => Contains (Header_Get (Header r) "Content-Type") "multipart/form-data"
  | Datatypes.None => false
  end.

(** The [Authorization] header is absent. *)
Definition has_no_authorization_header (r : http_Request) : bool :=
  bool_decide (Header r !! "Authorization"%string = Datatypes.None).

(** The ordered list of (predicate, result) pairs. *)
Definition resolution_order : list ((http_Request -> bool) * authType) :=
  [ (has_v4_signature_header, authTypeSigned);
    (has_presigned_query, authTypePresigned);
    (has_bearer_header, authTypeJWT);
    (has_form_policy_body, authTypePostPolicy);
    (has_no_authorization_header, authTypeAnonymous) ].

(** First match wins; [otherwise] when no predicate holds. *)
Fixpoint first_match (rules : list ((http_Request -> bool) * authType))
    (otherwise : authType) (r : http_Request) : authType :=
  match rules with
  | [] => otherwise
  | (p, t) :: rules' => if p r then t else first_match rules' otherwise r
  end.

Definition classify (r : http_Request) : authType :=
  first_match resolution_order authTypeUnknown r.

End Spec.

(** ** Sample requests and collaborators *)

Module Samples.

Definition mkRequest (method : string) (query header : list (string * list string))
  : http_Request :=
  {| Method := method;
     URL := {| Path := "/bucket/object"; Query := list_to_map query |};
     Header := list_to_map header;
     Body := [] |}.

(** No credentials at all. *)
Definition reqPlain : http_Request := mkRequest "GET" [] [].

(** A V4 [Authorization] header together with a presigning query
    parameter. *)
Definition reqSignedWithQuery : http_Request :=
  mkRequest "GET"
    [("X-Amz-Credential", ["AKIDEXAMPLE/20150830/us-east-1/s3/aws4_request"])]
    [("Authorization", ["AWS4-HMAC-SHA256 Credential=AKIDEXAMPLE/20150830/us-east-1/s3/aws4_request"])]%string.

(** A V4 [Authorization] header, and a body. *)
Definition reqSigned : http_Request :=
  {| Method := "PUT";
     URL := {| Path := "/bucket/object"; Query := ∅ |};
     Header := {[ "Authorization"%string := ["AWS4-HMAC-SHA256 Credential=AKIDEXAMPLE"%string] ]};
     Body := bytes_of_string "payload" |}.

(** A presigned URL: query credential, no [Authorization] header. *)
Definition reqPresigned : http_Request :=
  mkRequest "GET"
    [("X-Amz-Credential", ["AKIDEXAMPLE/20150830/us-east-1/s3/aws4_request"])]%string [].

Definition reqBearer : http_Request :=
  mkRequest "GET" [] [("Authorization", ["Bearer abc.def.ghi"])]%string.

Definition reqBasic : http_Request :=
  mkRequest "GET" [] [("Authorization", ["Basic xyz"])]%string.

(** A browser form upload. *)
Definition reqPostPolicy : http_Request :=
  mkRequest "POST" [] [("Content-Type", ["multipart/form-data; boundary=xYz"])]%string.

(** A browser form upload that also carries an unrecognised
    [Authorization] header. *)
Definition reqBasicForm : http_Request :=
  mkRequest "POST" []
    [("Authorization", ["Basic xyz"]);
     ("Content-Type", ["multipart/form-data; boundary=xYz"])]%string.

(** A next handler that answers 200 with a one-byte body. *)
Definition okHandler : http_Handler :=
  fun w _ =>
    {| wroteHeader := true;
       status := (if wroteHeader w then status w else 200);
       body := body w ++ [Byte.x2b] |}.

Definition acceptAll : http_Request -> bool := fun _ => true.
Definition rejectAll : http_Request -> bool := fun _ => false.

(** An error serialiser that writes status 400 and no body. *)
Definition plainErrorResponse
  : ResponseWriter -> http_Request -> ErrorCode -> string -> ResponseWriter :=
  fun w _ _ _ => WriteHeader w 400.

(** A verifier that answers every question with a fixed verdict. *)
Record fixedSign : Type := {
  toVerify : option http_Request;
  verdict : bool * option probe_Error
}.

#[global] Instance fixedSign_verifier : SignatureVerifier fixedSign := {
  Sign_SetHTTPRequestToVerify s r := {| toVerify := Some r; verdict := verdict s |};
  Sign_DoesSignatureMatch s _ := verdict s;
  Sign_DoesPresignedSignatureMatch s := verdict s
}.

Definition signMatching : fixedSign :=
  {| toVerify := Datatypes.None; verdict := (true, Datatypes.None) |}.
Definition signMismatch : fixedSign :=
  {| toVerify := Datatypes.None; verdict := (false, Datatypes.None) |}.
Definition signBroken : fixedSign :=
  {| toVerify := Datatypes.None;
     verdict := (false, Some {| Cause := "malformed credential"; CallTrace := [] |}) |}.

End Samples.

(** ** Further vocabulary for the properties below *)

(** What the classifier reads of a multi-valued field: whether the key is
    there, and the first of its values. *)
Definition firstValue (m : gmap string (list string)) (key : string)
  : option (option string) :=
  head <$> (m !! key).

(** A call that rejects the request: the bare status or the error
    response. *)
Definition isRejectCall (c : Call) : bool :=
  match c with
  | CallWriteHeader _ | CallWriteErrorResponse _ _ _ => true
  | _ => false
  end.

(** A call on the signature verifier. *)
Definition isSignCall (c : Call) : bool :=
  match c with
  | CallSetHTTPRequestToVerify _ | CallDoesSignatureMatch _
  | CallDoesPresignedSignatureMatch => true
  | _ => false
  end.


(** [setAuthHandler] returns its [authHandler] as an [http.Handler]: what
    [ServeHTTP] leaves in the response writer. *)
Definition authHandler_asHandler
    (jwt : http_Request -> bool)
    (wer : ResponseWriter -> http_Request -> ErrorCode -> string -> ResponseWriter)
    (a : authHandler) : http_Handler :=
  fun w r => writer (snd (serve (ServeHTTP jwt wer a r) w)).

Module MoreSamples.

(** A bearer token together with a presigning query parameter. *)
Definition reqBearerWithQuery : http_Request :=
  Samples.mkRequest "GET"
    [("X-Amz-Credential", ["AKIDEXAMPLE/20150830/us-east-1/s3/aws4_request"])]
    [("Authorization", ["Bearer abc.def.ghi"])]%string.

(** The same form upload twice, with different bodies, paths, further
    header values and one more header. *)
Definition reqFormA : http_Request :=
  {| Method := "POST";
     URL := {| Path := "/a"; Query := ∅ |};
     Header := {[ "Content-Type"%string := ["multipart/form-data"%string] ]};
     Body := [] |}.

Definition reqFormB : http_Request :=
  {| Method := "POST";
     URL := {| Path := "/b"; Query := {[ "prefix"%string := ["x"%string] ]} |};
     Header := <[ "Content-Type"%string := ["multipart/form-data"%string; "text/plain"%string] ]>
                 {[ "Host"%string := ["example.org"%string] ]};
     Body := bytes_of_string "payload" |}.

(** A verifier that reports a match together with an error. *)
Definition signMatchWithError : Samples.fixedSign :=
  {| Samples.toVerify := Datatypes.None;
     Samples.verdict := (true, Some {| Cause := "clock skew"; CallTrace := [] |}) |}.

End MoreSamples.

(** ** Proof steps for runs of the monad *)

(** Unfold one run of the monad down to the pair it returns. *)
Ltac run_go :=
  unfold serve, handler_ServeHTTP, isJWTReqAuthenticated, w_WriteHeader,
    writeErrorResponse, bind, ret, call, onWriter;
  cbn [fst snd calls writer app].

(** The same for the verification entry point; the checksum is left
    folded. *)
Ltac run_verify :=
  unfold serve, isSignV4ReqAuthenticated, SetHTTPRequestToVerify,
    DoesSignatureMatch, DoesPresignedSignatureMatch, errorIf, bind, ret, call;
  cbv beta iota zeta; cbn [fst snd calls writer app].

(** Replace the checksum of the empty payload by a variable, so that
    simplification does not start computing it. *)
Ltac hide_hint :=
  generalize (hex.EncodeToString (sha256.Sum256 (bytes_of_string "")));
  let hint := fresh "hint" in intros hint.

(** * Properties *)

(** ** The string functions do what Go's documentation says *)

Lemma append_String (c : ascii) (a b : string) :
  (String c a +:+ b)%string = String c (a +:+ b)%string.
Proof. reflexivity. Qed.

Lemma append_Empty (b : string) : (EmptyString +:+ b)%string = b.
Proof. reflexivity. Qed.

Lemma HasPrefix_iff (s prefix : string) :
  HasPrefix s prefix = true <-> exists rest, s = (prefix +:+ rest)%string.
Proof.
  revert s. induction prefix as [|c prefix' IH]; intros s; simpl.
  - split; [intros _; exists s; reflexivity | reflexivity].
  - destruct s as [|d s'].
    + split; [discriminate | intros [rest E]; discriminate].
    + destruct (Ascii.eqb_spec d c) as [->|Hne].
      * rewrite IH. split; intros [rest E]; exists rest;
          rewrite append_String in *; congruence.
      * split; [discriminate | intros [rest E]; rewrite append_String in E; congruence].
Qed.

Lemma Contains_iff (s substr : string) :
  Contains s substr = true <->
  exists before after, s = (before +:+ substr +:+ after)%string.
Proof.
  induction s as [|d s' IH]; simpl.
  - rewrite orb_false_r, HasPrefix_iff. split.
    + intros [rest E]. exists EmptyString, rest. exact E.
    + intros [[|b before] [after E]]; [exists after; exact E | discriminate].
  - rewrite orb_true_iff, HasPrefix_iff, IH. split.
    + intros [[rest E] | (before & after & E)].
      * exists EmptyString, rest. exact E.
      * exists (String d before), after. rewrite append_String. congruence.
    + intros ([|b before] & after & E).
      * left. exists after. exact E.
      * right. exists before, after. rewrite append_String in E. congruence.
Qed.

(** ** Map lookups *)

Lemma has_key_true (m : gmap string (list string)) (key : string) :
  has_key m key = true <-> is_Some (m !! key).
Proof.
  unfold has_key. destruct (m !! key) as [vs|].
  - split; [eauto | reflexivity].
  - split; [discriminate | intros [vs E]; discriminate].
Qed.

Lemma has_key_false (m : gmap string (list string)) (key : string) :
  has_key m key = false <-> m !! key = Datatypes.None.
Proof.
  unfold has_key. destruct (m !! key) as [vs|]; split; congruence.
Qed.

(** ** The predicates of the code are those of the specification *)

Lemma isRequestSignatureV4_spec (r : http_Request) :
  isRequestSignatureV4 r = Spec.has_v4_signature_header r.
Proof.
  unfold isRequestSignatureV4, Spec.has_v4_signature_header, has_key.
  destruct (Header r !! "Authorization"%string); [|reflexivity].
  destruct (HasPrefix _ _); reflexivity.
Qed.

Lemma isRequestJWT_spec (r : http_Request) :
  isRequestJWT r = Spec.has_bearer_header r.
Proof.
  unfold isRequestJWT, Spec.has_bearer_header, has_key.
  destruct (Header r !! "Authorization"%string); [|reflexivity].
  destruct (HasPrefix _ _); reflexivity.
Qed.

Lemma isRequestPresignedSignatureV4_spec (r : http_Request) :
  isRequestPresignedSignatureV4 r = Spec.has_presigned_query r.
Proof.
  unfold isRequestPresignedSignatureV4, Spec.has_presigned_query, has_key.
  destruct (Query (URL r) !! "X-Amz-Credential"%string) as [vs|].
  - symmetry. apply bool_decide_eq_true_2. eauto.
  - symmetry. apply bool_decide_eq_false_2. intros [vs E]. discriminate.
Qed.

Lemma isRequestPostPolicySignatureV4_spec (r : http_Request) :
  isRequestPostPolicySignatureV4 r = Spec.has_form_policy_body r.
Proof.
  unfold isRequestPostPolicySignatureV4, Spec.has_form_policy_body, has_key.
  destruct (Header r !! "Content-Type"%string).
  - destruct (Contains _ _), (String.eqb _ _); reflexivity.
  - rewrite andb_false_r. reflexivity.
Qed.

Lemma no_authorization_spec (r : http_Request) :
  negb (has_key (Header r) "Authorization") = Spec.has_no_authorization_header r.
Proof.
  unfold Spec.has_no_authorization_header, has_key.
  destruct (Header r !! "Authorization"%string) as [vs|]; reflexivity.
Qed.

(** First match wins, said index by index: the result is the tag of the
    first rule whose predicate holds. *)
Lemma first_match_wins rules otherwise (r : http_Request) (i : nat) p t :
  rules !! i = Some (p, t) ->
  p r = true ->
  (forall j q u, (j < i)%nat -> rules !! j = Some (q, u) -> q r = false) ->
  Spec.first_match rules otherwise r = t.
Proof.
  revert i. induction rules as [|[q u] rules' IH]; intros i Hi Hp Hbefore.
  - discriminate.
  - destruct i as [|i']; simpl in *.
    + injection Hi as -> ->. rewrite Hp. reflexivity.
    + rewrite (Hbefore 0%nat q u); [|lia|reflexivity].
      apply (IH i'); [assumption..|].
      intros j q' u' Hj Hq'. apply (Hbefore (S j) q' u'); [lia | exact Hq'].
Qed.

Lemma first_match_none rules otherwise (r : http_Request) :
  (forall j q u, rules !! j = Some (q, u) -> q r = false) ->
  Spec.first_match rules otherwise r = otherwise.
Proof.
  induction rules as [|[q u] rules' IH]; intros Hall; simpl.
  - reflexivity.
  - rewrite (Hall 0%nat q u); [|reflexivity].
    apply IH. intros j q' u' Hq'. apply (Hall (S j) q' u'). exact Hq'.
Qed.

Lemma getRequestAuthType_classify (r : http_Request) :
  getRequestAuthType r = Spec.classify r.
Proof.
  unfold getRequestAuthType, Spec.classify, Spec.resolution_order. simpl.
  rewrite isRequestSignatureV4_spec, isRequestPresignedSignatureV4_spec,
    isRequestJWT_spec, isRequestPostPolicySignatureV4_spec, no_authorization_spec.
  reflexivity.
Qed.

(** ** The classifier *)

(** C1.  The classifier is the first-match evaluation of the ordered
    rules v4-signature-header, presigned-query, bearer-header,
    form-policy-body, no-authorization-header (with [Unknown] when none
    holds): its result is the tag of the first rule of that list whose
    predicate holds.  In particular a request whose [Authorization] header
    begins with [AWS4-HMAC-SHA256] and whose query has an
    [X-Amz-Credential] parameter classifies as [Signed]. *)
Theorem C1_resolution_order (r : http_Request) :
  getRequestAuthType r = Spec.classify r /\
  (forall i p t,
      Spec.resolution_order !! i = Some (p, t) ->
      p r = true ->
      (forall j q u, (j < i)%nat -> Spec.resolution_order !! j = Some (q, u) -> q r = false) ->
      getRequestAuthType r = t) /\
  ((forall j q u, Spec.resolution_order !! j = Some (q, u) -> q r = false) ->
   getRequestAuthType r = authTypeUnknown) /\
  (forall v vs,
      Header r !! "Authorization"%string = Some (v :: vs) ->
      HasPrefix v "AWS4-HMAC-SHA256" = true ->
      is_Some (Query (URL r) !! "X-Amz-Credential"%string) ->
      getRequestAuthType r = authTypeSigned).
Proof.
  split; [apply getRequestAuthType_classify|].
  split; [|split].
  - intros i p t Hi Hp Hbefore. rewrite getRequestAuthType_classify.
    exact (first_match_wins _ _ r i p t Hi Hp Hbefore).
  - intros Hall. rewrite getRequestAuthType_classify.
    exact (first_match_none _ _ r Hall).
  - intros v vs Hauth Hpre _.
    unfold getRequestAuthType, isRequestSignatureV4, has_key, Header_Get,
      signV4Algorithm.
    rewrite Hauth, Hpre. reflexivity.
Qed.

Lemma C1_resolution_order_witness :
  getRequestAuthType Samples.reqSignedWithQuery = authTypeSigned.
Proof.
  apply (proj2 (proj2 (proj2 (C1_resolution_order Samples.reqSignedWithQuery))))
    with (v := "AWS4-HMAC-SHA256 Credential=AKIDEXAMPLE/20150830/us-east-1/s3/aws4_request"%string)
         (vs := []).
  - vm_compute. reflexivity.
  - vm_compute. reflexivity.
  - exists ["AKIDEXAMPLE/20150830/us-east-1/s3/aws4_request"%string].
    vm_compute. reflexivity.
Defined.

(** Without an [Authorization] header neither header predicate holds. *)
Lemma no_authorization_no_header_scheme (r : http_Request) :
  Header r !! "Authorization"%string = Datatypes.None ->
  isRequestSignatureV4 r = false /\ isRequestJWT r = false.
Proof.
  intros Hauth. unfold isRequestSignatureV4, isRequestJWT, has_key.
  rewrite Hauth. split; reflexivity.
Qed.

(** C2, as stated, fails: a presigned URL has no [Authorization] header
    and is not a form upload, yet it classifies as [Presigned]. *)
Lemma C2_anonymous_counterexample :
  Header Samples.reqPresigned !! "Authorization"%string = Datatypes.None /\
  isRequestPostPolicySignatureV4 Samples.reqPresigned = false /\
  getRequestAuthType Samples.reqPresigned = authTypePresigned /\
  getRequestAuthType Samples.reqPresigned <> authTypeAnonymous.
Proof.
  repeat split; try (vm_compute; reflexivity).
  vm_compute. discriminate.
Qed.

(** C2, amended.  A request that lacks an [Authorization] header, has no
    [X-Amz-Credential] query parameter and does not satisfy the
    form-policy predicate classifies as [Anonymous]. *)
Theorem C2_anonymous (r : http_Request) :
  Header r !! "Authorization"%string = Datatypes.None ->
  Query (URL r) !! "X-Amz-Credential"%string = Datatypes.None ->
  isRequestPostPolicySignatureV4 r = false ->
  getRequestAuthType r = authTypeAnonymous.
Proof.
  intros Hauth Hquery Hform.
  destruct (no_authorization_no_header_scheme r Hauth) as [Hv4 Hjwt].
  unfold getRequestAuthType.
  rewrite Hv4, Hjwt, Hform.
  unfold isRequestPresignedSignatureV4, has_key. rewrite Hquery, Hauth.
  reflexivity.
Qed.

Lemma C2_anonymous_witness :
  getRequestAuthType Samples.reqPlain = authTypeAnonymous.
Proof.
  apply (C2_anonymous Samples.reqPlain); vm_compute; reflexivity.
Defined.

(** C6.  [isRequestAnonymous] is the negation of the disjunction of the
    JWT, Signed, Presigned and PostPolicy predicates; and on every request
    without an [Authorization] header it holds exactly when the classifier
    answers [Anonymous]. *)
Theorem C6_isRequestAnonymous (r : http_Request) :
  isRequestAnonymous r =
    negb (isRequestJWT r || isRequestSignatureV4 r
          || isRequestPresignedSignatureV4 r || isRequestPostPolicySignatureV4 r) /\
  (Header r !! "Authorization"%string = Datatypes.None ->
   (isRequestAnonymous r = true <-> getRequestAuthType r = authTypeAnonymous)).
Proof.
  split.
  - unfold isRequestAnonymous.
    destruct (isRequestJWT r || isRequestSignatureV4 r
              || isRequestPresignedSignatureV4 r || isRequestPostPolicySignatureV4 r);
      reflexivity.
  - intros Hauth.
    destruct (no_authorization_no_header_scheme r Hauth) as [Hv4 Hjwt].
    unfold isRequestAnonymous, getRequestAuthType.
    rewrite Hv4, Hjwt.
    replace (has_key (Header r) "Authorization") with false
      by (symmetry; apply has_key_false; exact Hauth).
    destruct (isRequestPresignedSignatureV4 r), (isRequestPostPolicySignatureV4 r);
      simpl; split; congruence.
Qed.

Lemma C6_isRequestAnonymous_witness :
  (isRequestAnonymous Samples.reqPlain = true <->
   getRequestAuthType Samples.reqPlain = authTypeAnonymous) /\
  (isRequestAnonymous Samples.reqPresigned = true <->
   getRequestAuthType Samples.reqPresigned = authTypeAnonymous).
Proof.
  split.
  - apply (proj2 (C6_isRequestAnonymous Samples.reqPlain)). vm_compute. reflexivity.
  - apply (proj2 (C6_isRequestAnonymous Samples.reqPresigned)). vm_compute. reflexivity.
Defined.

(** C7, as stated, fails: a form upload that carries
    [Authorization: Basic xyz] and no query credential classifies as
    [PostPolicy], not [Unknown]. *)
Lemma C7_unknown_counterexample :
  Header Samples.reqBasicForm !! "Authorization"%string = Some ["Basic xyz"%string] /\
  HasPrefix "Basic xyz" "AWS4-HMAC-SHA256" = false /\
  HasPrefix "Basic xyz" "Bearer" = false /\
  Query (URL Samples.reqBasicForm) !! "X-Amz-Credential"%string = Datatypes.None /\
  getRequestAuthType Samples.reqBasicForm = authTypePostPolicy /\
  getRequestAuthType Samples.reqBasicForm <> authTypeUnknown.
Proof.
  repeat split; try (vm_compute; reflexivity).
  vm_compute. discriminate.
Qed.

(** C7, amended.  A request that carries an [Authorization] header whose
    value starts with neither [AWS4-HMAC-SHA256] nor [Bearer], that has no
    [X-Amz-Credential] query parameter and that does not satisfy the
    form-policy predicate classifies as [Unknown]; and [Unknown] is never
    the answer for a request whose [Authorization] header is absent. *)
Theorem C7_unknown (r : http_Request) :
  (forall vs,
      Header r !! "Authorization"%string = Some vs ->
      HasPrefix (Header_Get (Header r) "Authorization") "AWS4-HMAC-SHA256" = false ->
      HasPrefix (Header_Get (Header r) "Authorization") "Bearer" = false ->
      Query (URL r) !! "X-Amz-Credential"%string = Datatypes.None ->
      isRequestPostPolicySignatureV4 r = false ->
      getRequestAuthType r = authTypeUnknown) /\
  (Header r !! "Authorization"%string = Datatypes.None ->
   getRequestAuthType r <> authTypeUnknown).
Proof.
  split.
  - intros vs Hauth Hv4 Hjwt Hquery Hform.
    unfold getRequestAuthType, isRequestSignatureV4, isRequestJWT,
      isRequestPresignedSignatureV4, signV4Algorithm, jwtAlgorithm.
    rewrite Hv4, Hjwt, Hform.
    unfold has_key. rewrite Hauth, Hquery. reflexivity.
  - intros Hauth.
    destruct (no_authorization_no_header_scheme r Hauth) as [Hv4 Hjwt].
    unfold getRequestAuthType. rewrite Hv4, Hjwt.
    replace (has_key (Header r) "Authorization") with false
      by (symmetry; apply has_key_false; exact Hauth).
    destruct (isRequestPresignedSignatureV4 r), (isRequestPostPolicySignatureV4 r);
      simpl; discriminate.
Qed.

Lemma C7_unknown_witness :
  getRequestAuthType Samples.reqBasic = authTypeUnknown /\
  getRequestAuthType Samples.reqPostPolicy <> authTypeUnknown.
Proof.
  split.
  - apply (proj1 (C7_unknown Samples.reqBasic)) with (vs := ["Basic xyz"%string]);
      vm_compute; reflexivity.
  - apply (proj2 (C7_unknown Samples.reqPostPolicy)). vm_compute. reflexivity.
Defined.

(** ** The dispatch middleware *)

(** What serving a request comes to, one case per classification. *)
Lemma ServeHTTP_forward jwt wer (a : authHandler) (r : http_Request) (w : ResponseWriter) :
  In (getRequestAuthType r)
     [authTypeAnonymous; authTypePresigned; authTypeSigned; authTypePostPolicy] ->
  serve (ServeHTTP jwt wer a r) w =
    (tt, {| writer := handler a w r; calls := [CallHandlerServeHTTP r] |}).
Proof.
  intros Hin. unfold ServeHTTP.
  destruct (getRequestAuthType r); simpl in Hin;
    try (exfalso; intuition discriminate); run_go; reflexivity.
Qed.

Lemma ServeHTTP_jwt jwt wer (a : authHandler) (r : http_Request) (w : ResponseWriter) :
  getRequestAuthType r = authTypeJWT ->
  serve (ServeHTTP jwt wer a r) w =
    if jwt r
    then (tt, {| writer := handler a w r;
                 calls := [CallIsJWTReqAuthenticated r; CallHandlerServeHTTP r] |})
    else (tt, {| writer := WriteHeader w StatusUnauthorized;
                 calls := [CallIsJWTReqAuthenticated r; CallWriteHeader StatusUnauthorized] |}).
Proof.
  intros Ht. unfold ServeHTTP. rewrite Ht. run_go.
  destruct (jwt r); reflexivity.
Qed.

Lemma ServeHTTP_unknown jwt wer (a : authHandler) (r : http_Request) (w : ResponseWriter) :
  getRequestAuthType r = authTypeUnknown ->
  serve (ServeHTTP jwt wer a r) w =
    (tt, {| writer := wer w r APIError.SignatureVersionNotSupported (Path (URL r));
            calls := [CallWriteErrorResponse r APIError.SignatureVersionNotSupported
                        (Path (URL r))] |}).
Proof.
  intros Ht. unfold ServeHTTP. rewrite Ht. run_go. reflexivity.
Qed.

Lemma WriteHeader_body (w : ResponseWriter) (code : Z) :
  body (WriteHeader w code) = body w.
Proof. unfold WriteHeader. destruct (wroteHeader w); reflexivity. Qed.

(** C3.  For a request classified as JWT the next handler is invoked if
    and only if the token verifier answers true.  When it answers false
    the middleware writes status 401 and nothing else: no byte is added
    to the body (a fresh response ends with status 401 and an empty body)
    and the next handler is not invoked. *)
Theorem C3_token_gate jwt wer (a : authHandler) (r : http_Request) (w : ResponseWriter) :
  getRequestAuthType r = authTypeJWT ->
  let s := snd (serve (ServeHTTP jwt wer a r) w) in
  ((0 < handlerInvocations (calls s))%nat <-> jwt r = true) /\
  (jwt r = true ->
   calls s = [CallIsJWTReqAuthenticated r; CallHandlerServeHTTP r] /\
   writer s = handler a w r) /\
  (jwt r = false ->
   calls s = [CallIsJWTReqAuthenticated r; CallWriteHeader 401] /\
   handlerInvocations (calls s) = 0%nat /\
   writer s = WriteHeader w 401 /\
   body (writer s) = body w /\
   (w = freshWriter ->
    writer s = {| wroteHeader := true; status := 401; body := [] |})).
Proof.
  intros Ht s. subst s. rewrite (ServeHTTP_jwt jwt wer a r w Ht).
  destruct (jwt r); cbn [snd calls writer].
  - split; [|split].
    + split; [reflexivity | intros _; cbn; lia].
    + intros _. split; reflexivity.
    + discriminate.
  - split; [|split].
    + split; [cbn; lia | discriminate].
    + discriminate.
    + intros _. repeat split.
      * apply WriteHeader_body.
      * intros ->. reflexivity.
Qed.

Lemma C3_token_gate_witness :
  let s := snd (serve (ServeHTTP Samples.rejectAll Samples.plainErrorResponse
                         (setAuthHandler Samples.okHandler) Samples.reqBearer)
                      freshWriter) in
  calls s = [CallIsJWTReqAuthenticated Samples.reqBearer; CallWriteHeader 401] /\
  handlerInvocations (calls s) = 0%nat /\
  writer s = {| wroteHeader := true; status := 401; body := [] |}.
Proof.
  pose proof (C3_token_gate Samples.rejectAll Samples.plainErrorResponse
                (setAuthHandler Samples.okHandler) Samples.reqBearer freshWriter) as G.
  assert (Ht : getRequestAuthType Samples.reqBearer = authTypeJWT)
    by (vm_compute; reflexivity).
  destruct (G Ht) as (_ & _ & Hreject).
  destruct (Hreject eq_refl) as (Hcalls & Hnone & _ & _ & Hfresh).
  exact (conj Hcalls (conj Hnone (Hfresh eq_refl))).
Defined.

(** C4.  For a request classified as Unknown the middleware makes one
    call, the error response carrying [SignatureVersionNotSupported] and
    the request path: the next handler is not invoked and no verifier is
    called. *)
Theorem C4_unknown_rejected jwt wer (a : authHandler) (r : http_Request)
    (w : ResponseWriter) :
  getRequestAuthType r = authTypeUnknown ->
  let s := snd (serve (ServeHTTP jwt wer a r) w) in
  calls s = [CallWriteErrorResponse r APIError.SignatureVersionNotSupported (Path (URL r))] /\
  writer s = wer w r APIError.SignatureVersionNotSupported (Path (URL r)) /\
  handlerInvocations (calls s) = 0%nat /\
  List.filter isVerifierCall (calls s) = [].
Proof.
  intros Ht s. subst s. rewrite (ServeHTTP_unknown jwt wer a r w Ht).
  repeat split.
Qed.

Lemma C4_unknown_rejected_witness :
  let s := snd (serve (ServeHTTP Samples.acceptAll Samples.plainErrorResponse
                         (setAuthHandler Samples.okHandler) Samples.reqBasic)
                      freshWriter) in
  calls s = [CallWriteErrorResponse Samples.reqBasic
               APIError.SignatureVersionNotSupported "/bucket/object"] /\
  handlerInvocations (calls s) = 0%nat.
Proof.
  pose proof (C4_unknown_rejected Samples.acceptAll Samples.plainErrorResponse
                (setAuthHandler Samples.okHandler) Samples.reqBasic freshWriter) as G.
  assert (Ht : getRequestAuthType Samples.reqBasic = authTypeUnknown)
    by (vm_compute; reflexivity).
  destruct (G Ht) as (Hcalls & _ & Hnone & _).
  exact (conj Hcalls Hnone).
Defined.

(** C5.  For a request classified as Anonymous, Presigned, Signed or
    PostPolicy the middleware makes exactly one call, to the next
    handler; no verifier is called and the outcome is the same whatever
    the token verifier would answer.  Whatever the classification, the
    next handler is invoked at most once. *)
Theorem C5_pass_through jwt wer (a : authHandler) (r : http_Request) (w : ResponseWriter) :
  let s := snd (serve (ServeHTTP jwt wer a r) w) in
  (In (getRequestAuthType r)
      [authTypeAnonymous; authTypePresigned; authTypeSigned; authTypePostPolicy] ->
   calls s = [CallHandlerServeHTTP r] /\
   handlerInvocations (calls s) = 1%nat /\
   writer s = handler a w r /\
   List.filter isVerifierCall (calls s) = [] /\
   (forall jwt', serve (ServeHTTP jwt' wer a r) w = serve (ServeHTTP jwt wer a r) w)) /\
  (handlerInvocations (calls s) <= 1)%nat.
Proof.
  intros s. split.
  - intros Hin. subst s. rewrite (ServeHTTP_forward jwt wer a r w Hin).
    repeat split. intros jwt'. apply ServeHTTP_forward. exact Hin.
  - subst s. destruct (getRequestAuthType r) eqn:Ht.
    + rewrite (ServeHTTP_unknown jwt wer a r w Ht). cbn. lia.
    + rewrite (ServeHTTP_forward jwt wer a r w); [cbn; lia | rewrite Ht; simpl; tauto].
    + rewrite (ServeHTTP_forward jwt wer a r w); [cbn; lia | rewrite Ht; simpl; tauto].
    + rewrite (ServeHTTP_forward jwt wer a r w); [cbn; lia | rewrite Ht; simpl; tauto].
    + rewrite (ServeHTTP_forward jwt wer a r w); [cbn; lia | rewrite Ht; simpl; tauto].
    + rewrite (ServeHTTP_jwt jwt wer a r w Ht). destruct (jwt r); cbn; lia.
Qed.

Lemma C5_pass_through_witness :
  let s := snd (serve (ServeHTTP Samples.rejectAll Samples.plainErrorResponse
                         (setAuthHandler Samples.okHandler) Samples.reqSigned)
                      freshWriter) in
  calls s = [CallHandlerServeHTTP Samples.reqSigned] /\
  handlerInvocations (calls s) = 1%nat.
Proof.
  pose proof (C5_pass_through Samples.rejectAll Samples.plainErrorResponse
                (setAuthHandler Samples.okHandler) Samples.reqSigned freshWriter) as G.
  assert (Hin : In (getRequestAuthType Samples.reqSigned)
                   [authTypeAnonymous; authTypePresigned; authTypeSigned; authTypePostPolicy])
    by (vm_compute; tauto).
  destruct G as [G _]. destruct (G Hin) as (Hcalls & Hone & _).
  exact (conj Hcalls Hone).
Defined.

(** ** Signature verification *)

(** The hint handed to [DoesSignatureMatch], written out. *)
Lemma dummyPayload_hex :
  hex.EncodeToString (sha256.Sum256 (bytes_of_string "")) =
  "e3b0c44298fc1c149afbf4c8996fb92427ae41e4649b934ca495991b7852b855"%string.
Proof. vm_compute. reflexivity. Qed.

(** The model of SHA-256 on the two message test vectors of FIPS 180-4,
    the second of which takes two blocks. *)
Lemma Sum256_two_blocks :
  hex.EncodeToString
    (sha256.Sum256
       (bytes_of_string "abcdbcdecdefdefgefghfghighijhijkijkljklmklmnlmnomnopnopq")) =
  "248d6a61d20638b8e5c026930c3e6039a33ce45964ff2167f6ecedd419db06c1"%string.
Proof. vm_compute. reflexivity. Qed.

Lemma Sum256_abc :
  hex.EncodeToString (sha256.Sum256 (bytes_of_string "abc")) =
  "ba7816bf8f01cfea414140de5dae2223b00361a396177a9cb410ff61f20015ad"%string.
Proof. vm_compute. reflexivity. Qed.

Section VerificationRuns.

Context {Sign : Type} `{SignatureVerifier Sign}.
Variables (sign : Sign) (r : http_Request) (w : ResponseWriter).

(** The signed path. *)
Lemma isSignV4ReqAuthenticated_signed :
  isRequestSignatureV4 r = true ->
  let auth := Sign_SetHTTPRequestToVerify sign r in
  let hint := hex.EncodeToString (sha256.Sum256 (bytes_of_string "")) in
  serve (isSignV4ReqAuthenticated sign r) w =
    match Sign_DoesSignatureMatch auth hint with
    | (_, Some e) =>
        ((false, APIError.InternalError),
         {| writer := w;
            calls := [CallSetHTTPRequestToVerify r; CallDoesSignatureMatch hint;
                      CallErrorIf (Trace e) "Signature verification failed."] |})
    | (false, Datatypes.None) =>
        ((false, APIError.SignatureDoesNotMatch),
         {| writer := w;
            calls := [CallSetHTTPRequestToVerify r; CallDoesSignatureMatch hint] |})
    | (true, Datatypes.None) =>
        ((true, APIError.None),
         {| writer := w;
            calls := [CallSetHTTPRequestToVerify r; CallDoesSignatureMatch hint] |})
    end.
Proof.
  intros Hv4 auth hint. run_verify. rewrite Hv4. subst auth hint.
  destruct (Sign_DoesSignatureMatch _ _) as [[|] [e|]]; reflexivity.
Qed.

(** The presigned path. *)
Lemma isSignV4ReqAuthenticated_presigned :
  isRequestSignatureV4 r = false ->
  isRequestPresignedSignatureV4 r = true ->
  let auth := Sign_SetHTTPRequestToVerify sign r in
  serve (isSignV4ReqAuthenticated sign r) w =
    match Sign_DoesPresignedSignatureMatch auth with
    | (_, Some e) =>
        ((false, APIError.InternalError),
         {| writer := w;
            calls := [CallSetHTTPRequestToVerify r; CallDoesPresignedSignatureMatch;
                      CallErrorIf (Trace e) "Presigned signature verification failed."] |})
    | (false, Datatypes.None) =>
        ((false, APIError.SignatureDoesNotMatch),
         {| writer := w;
            calls := [CallSetHTTPRequestToVerify r; CallDoesPresignedSignatureMatch] |})
    | (true, Datatypes.None) =>
        ((true, APIError.None),
         {| writer := w;
            calls := [CallSetHTTPRequestToVerify r; CallDoesPresignedSignatureMatch] |})
    end.
Proof.
  intros Hv4 Hpre auth. run_verify. rewrite Hv4, Hpre. subst auth.
  destruct (Sign_DoesPresignedSignatureMatch _) as [[|] [e|]]; reflexivity.
Qed.

(** Neither path. *)
Lemma isSignV4ReqAuthenticated_neither :
  isRequestSignatureV4 r = false ->
  isRequestPresignedSignatureV4 r = false ->
  serve (isSignV4ReqAuthenticated sign r) w =
    ((false, APIError.AccessDenied),
     {| writer := w; calls := [CallSetHTTPRequestToVerify r] |}).
Proof.
  intros Hv4 Hpre. run_verify. rewrite Hv4, Hpre. reflexivity.
Qed.

End VerificationRuns.

(** C8.  Every outcome of [isSignV4ReqAuthenticated] pairs [false] with
    an error code other than [None] and [true] with [None].  On the
    signed and on the presigned path, an error reported by the verifier
    yields [(false, InternalError)] and a plain mismatch (no error, no
    match) yields [(false, SignatureDoesNotMatch)]. *)
Theorem C8_verification_outcome {Sign : Type} `{SignatureVerifier Sign}
    (sign : Sign) (r : http_Request) (w : ResponseWriter) :
  let out := fst (serve (isSignV4ReqAuthenticated sign r) w) in
  let auth := Sign_SetHTTPRequestToVerify sign r in
  let hint := hex.EncodeToString (sha256.Sum256 (bytes_of_string "")) in
  (fst out = false <-> snd out <> APIError.None) /\
  (fst out = true <-> snd out = APIError.None) /\
  (isRequestSignatureV4 r = true ->
   (forall ok e, Sign_DoesSignatureMatch auth hint = (ok, Some e) ->
                 out = (false, APIError.InternalError)) /\
   (Sign_DoesSignatureMatch auth hint = (false, Datatypes.None) ->
    out = (false, APIError.SignatureDoesNotMatch))) /\
  (isRequestSignatureV4 r = false ->
   isRequestPresignedSignatureV4 r = true ->
   (forall ok e, Sign_DoesPresignedSignatureMatch auth = (ok, Some e) ->
                 out = (false, APIError.InternalError)) /\
   (Sign_DoesPresignedSignatureMatch auth = (false, Datatypes.None) ->
    out = (false, APIError.SignatureDoesNotMatch))).
Proof.
  intros out auth hint. subst out.
  destruct (isRequestSignatureV4 r) eqn:Hv4;
    [|destruct (isRequestPresignedSignatureV4 r) eqn:Hpre].
  - rewrite (isSignV4ReqAuthenticated_signed sign r w Hv4).
    fold auth hint.
    destruct (Sign_DoesSignatureMatch auth hint) as [[|] [e|]]; cbn [fst snd];
      (split; [split; [discriminate || (intros _; discriminate) | congruence]|]);
      (split; [split; congruence|]);
      (split; [intros _; split; [intros ok' e'|]; congruence | discriminate]).
  - rewrite (isSignV4ReqAuthenticated_presigned sign r w Hv4 Hpre).
    fold auth.
    destruct (Sign_DoesPresignedSignatureMatch auth) as [[|] [e|]]; cbn [fst snd];
      (split; [split; [discriminate || (intros _; discriminate) | congruence]|]);
      (split; [split; congruence|]);
      (split; [discriminate | intros _ _; split; [intros ok' e'|]; congruence]).
  - rewrite (isSignV4ReqAuthenticated_neither sign r w Hv4 Hpre). cbn [fst snd].
    split; [split; [intros _; discriminate | reflexivity]|].
    split; [split; discriminate|].
    split; discriminate.
Qed.

Lemma C8_verification_outcome_witness :
  fst (serve (isSignV4ReqAuthenticated Samples.signBroken Samples.reqSigned) freshWriter)
    = (false, APIError.InternalError) /\
  fst (serve (isSignV4ReqAuthenticated Samples.signMismatch Samples.reqSigned) freshWriter)
    = (false, APIError.SignatureDoesNotMatch) /\
  fst (serve (isSignV4ReqAuthenticated Samples.signBroken Samples.reqPresigned) freshWriter)
    = (false, APIError.InternalError) /\
  fst (serve (isSignV4ReqAuthenticated Samples.signMismatch Samples.reqPresigned) freshWriter)
    = (false, APIError.SignatureDoesNotMatch).
Proof.
  assert (Hs : isRequestSignatureV4 Samples.reqSigned = true) by (vm_compute; reflexivity).
  assert (Hn : isRequestSignatureV4 Samples.reqPresigned = false) by (vm_compute; reflexivity).
  assert (Hp : isRequestPresignedSignatureV4 Samples.reqPresigned = true)
    by (vm_compute; reflexivity).
  split; [|split; [|split]].
  - destruct (C8_verification_outcome Samples.signBroken Samples.reqSigned freshWriter)
      as (_ & _ & G & _).
    destruct (G Hs) as [G1 _].
    exact (G1 false {| Cause := "malformed credential"; CallTrace := [] |} eq_refl).
  - destruct (C8_verification_outcome Samples.signMismatch Samples.reqSigned freshWriter)
      as (_ & _ & G & _).
    destruct (G Hs) as [_ G2]. exact (G2 eq_refl).
  - destruct (C8_verification_outcome Samples.signBroken Samples.reqPresigned freshWriter)
      as (_ & _ & _ & G).
    destruct (G Hn Hp) as [G1 _].
    exact (G1 false {| Cause := "malformed credential"; CallTrace := [] |} eq_refl).
  - destruct (C8_verification_outcome Samples.signMismatch Samples.reqPresigned freshWriter)
      as (_ & _ & _ & G).
    destruct (G Hn Hp) as [_ G2]. exact (G2 eq_refl).
Defined.

(** C9.  Whenever [isSignV4ReqAuthenticated] calls [DoesSignatureMatch],
    the hint it passes is the hex-encoded SHA-256 checksum of the empty
    byte string, e3b0c442...7852b855; on the signed path it makes that
    call, and does so with the same hint whatever body the request has. *)
Theorem C9_payload_hash_hint {Sign : Type} `{SignatureVerifier Sign}
    (sign : Sign) (r : http_Request) (w : ResponseWriter) :
  let hint := hex.EncodeToString (sha256.Sum256 []) in
  hint = "e3b0c44298fc1c149afbf4c8996fb92427ae41e4649b934ca495991b7852b855"%string /\
  (forall h,
      In (CallDoesSignatureMatch h)
         (calls (snd (serve (isSignV4ReqAuthenticated sign r) w))) ->
      h = hint) /\
  (isRequestSignatureV4 r = true ->
   forall b,
     In (CallDoesSignatureMatch hint)
        (calls (snd (serve (isSignV4ReqAuthenticated sign (withBody r b)) w)))).
Proof.
  intros hint.
  assert (Ehint : hint = hex.EncodeToString (sha256.Sum256 (bytes_of_string "")))
    by reflexivity.
  split; [exact dummyPayload_hex|]. split.
  - intros h Hin.
    destruct (isRequestSignatureV4 r) eqn:Hv4;
      [|destruct (isRequestPresignedSignatureV4 r) eqn:Hpre].
    + rewrite (isSignV4ReqAuthenticated_signed sign r w Hv4) in Hin.
      rewrite <- Ehint in Hin.
      destruct (Sign_DoesSignatureMatch _ _) as [[|] [e|]]; cbn [snd calls] in Hin;
        simpl in Hin; intuition congruence.
    + rewrite (isSignV4ReqAuthenticated_presigned sign r w Hv4 Hpre) in Hin.
      destruct (Sign_DoesPresignedSignatureMatch _) as [[|] [e|]]; cbn [snd calls] in Hin;
        simpl in Hin; intuition congruence.
    + rewrite (isSignV4ReqAuthenticated_neither sign r w Hv4 Hpre) in Hin.
      simpl in Hin; intuition congruence.
  - intros Hv4 b.
    assert (Hv4' : isRequestSignatureV4 (withBody r b) = true) by exact Hv4.
    rewrite (isSignV4ReqAuthenticated_signed sign (withBody r b) w Hv4').
    rewrite <- Ehint.
    destruct (Sign_DoesSignatureMatch _ _) as [[|] [e|]]; cbn [snd calls];
      right; left; reflexivity.
Qed.

Lemma C9_payload_hash_hint_witness :
  In (CallDoesSignatureMatch
        "e3b0c44298fc1c149afbf4c8996fb92427ae41e4649b934ca495991b7852b855")
     (calls (snd (serve (isSignV4ReqAuthenticated Samples.signMatching
                           (withBody Samples.reqSigned (bytes_of_string "another payload")))
                        freshWriter))).
Proof.
  destruct (C9_payload_hash_hint Samples.signMatching Samples.reqSigned freshWriter)
    as (Ehint & _ & G).
  rewrite <- Ehint. apply G. vm_compute. reflexivity.
Defined.

(** C10.  A request with neither a V4 [Authorization] header nor an
    [X-Amz-Credential] query parameter gets [(false, AccessDenied)]; the
    only call made on the verifier is [SetHTTPRequestToVerify], neither
    signature-matching operation is invoked. *)
Theorem C10_access_denied {Sign : Type} `{SignatureVerifier Sign}
    (sign : Sign) (r : http_Request) (w : ResponseWriter) :
  isRequestSignatureV4 r = false ->
  isRequestPresignedSignatureV4 r = false ->
  fst (serve (isSignV4ReqAuthenticated sign r) w) = (false, APIError.AccessDenied) /\
  calls (snd (serve (isSignV4ReqAuthenticated sign r) w)) = [CallSetHTTPRequestToVerify r] /\
  List.filter isSignatureMatchCall
    (calls (snd (serve (isSignV4ReqAuthenticated sign r) w))) = [].
Proof.
  intros Hv4 Hpre.
  rewrite (isSignV4ReqAuthenticated_neither sign r w Hv4 Hpre).
  repeat split.
Qed.

Lemma C10_access_denied_witness :
  fst (serve (isSignV4ReqAuthenticated Samples.signMatching Samples.reqBearer) freshWriter)
    = (false, APIError.AccessDenied).
Proof.
  apply (C10_access_denied Samples.signMatching Samples.reqBearer freshWriter);
    vm_compute; reflexivity.
Defined.

(** ** The scenarios of the specification, run *)

(** A bearer token the verifier rejects: status 401, next handler not
    called. *)
Example scenario_bearer_rejected :
  getRequestAuthType Samples.reqBearer = authTypeJWT /\
  serve (ServeHTTP Samples.rejectAll Samples.plainErrorResponse
           (setAuthHandler Samples.okHandler) Samples.reqBearer) freshWriter =
    (tt, {| writer := {| wroteHeader := true; status := 401; body := [] |};
            calls := [CallIsJWTReqAuthenticated Samples.reqBearer;
                      CallWriteHeader 401] |}).
Proof. split; vm_compute; reflexivity. Qed.

(** A browser form upload without [Authorization]: next handler called. *)
Example scenario_form_upload :
  getRequestAuthType Samples.reqPostPolicy = authTypePostPolicy /\
  serve (ServeHTTP Samples.rejectAll Samples.plainErrorResponse
           (setAuthHandler Samples.okHandler) Samples.reqPostPolicy) freshWriter =
    (tt, {| writer := {| wroteHeader := true; status := 200; body := [Byte.x2b] |};
            calls := [CallHandlerServeHTTP Samples.reqPostPolicy] |}).
Proof. split; vm_compute; reflexivity. Qed.

(** A presigned GET without [Authorization]: next handler called. *)
Example scenario_presigned_get :
  getRequestAuthType Samples.reqPresigned = authTypePresigned /\
  serve (ServeHTTP Samples.rejectAll Samples.plainErrorResponse
           (setAuthHandler Samples.okHandler) Samples.reqPresigned) freshWriter =
    (tt, {| writer := {| wroteHeader := true; status := 200; body := [Byte.x2b] |};
            calls := [CallHandlerServeHTTP Samples.reqPresigned] |}).
Proof. split; vm_compute; reflexivity. Qed.

(** * Further properties of the code *)

(** ** The predicates, in terms of the request *)

Lemma HasPrefix_empty (c : ascii) (p : string) : HasPrefix EmptyString (String c p) = false.
Proof. reflexivity. Qed.

(** A value cannot start with both algorithm names. *)
Lemma prefixes_disjoint (v : string) :
  HasPrefix v jwtAlgorithm = true -> HasPrefix v signV4Algorithm = false.
Proof.
  destruct v as [|d v']; simpl; [discriminate|].
  destruct (Ascii.eqb_spec d "B"%char) as [->|]; [reflexivity | discriminate].
Qed.

(** A header whose first value starts with a non-empty prefix. *)
Lemma header_prefix_iff (h : http_Header) (key : string) (c : ascii) (p : string) :
  (if has_key h key then
     if HasPrefix (Header_Get h key) (String c p) then true else false
   else false) = true <->
  exists rest vs, h !! key = Some ((String c p +:+ rest)%string :: vs).
Proof.
  unfold has_key, Header_Get. destruct (h !! key) as [[|v vs]|].
  - rewrite HasPrefix_empty. split; [discriminate | intros (rest & vs & E); discriminate].
  - destruct (HasPrefix v (String c p)) eqn:Hp.
    + apply HasPrefix_iff in Hp as [rest ->].
      split; [intros _; exists rest, vs; reflexivity | reflexivity].
    + split; [discriminate|]. intros (rest & vs' & E).
      injection E as -> ->.
      assert (HasPrefix (String c p +:+ rest) (String c p) = true) as Hp'
        by (apply HasPrefix_iff; exists rest; reflexivity).
      congruence.
  - split; [discriminate | intros (rest & vs & E); discriminate].
Qed.

Lemma jwt_excludes_v4 (r : http_Request) :
  isRequestJWT r = true -> isRequestSignatureV4 r = false.
Proof.
  unfold isRequestJWT, isRequestSignatureV4.
  destruct (has_key (Header r) "Authorization"); [|reflexivity].
  destruct (HasPrefix _ jwtAlgorithm) eqn:Hj; [|discriminate].
  intros _. rewrite (prefixes_disjoint _ Hj). reflexivity.
Qed.

(** X1.  No request satisfies both header predicates: the first
    [Authorization] value cannot start with [Bearer] and with
    [AWS4-HMAC-SHA256]. *)
Theorem header_schemes_exclusive (r : http_Request) :
  isRequestJWT r && isRequestSignatureV4 r = false.
Proof.
  destruct (isRequestJWT r) eqn:Hj; [|reflexivity].
  rewrite (jwt_excludes_v4 r Hj). reflexivity.
Qed.

(** X2.  [isRequestSignatureV4] holds exactly when the [Authorization]
    header is present and its first value is [AWS4-HMAC-SHA256] followed
    by anything (no separator is asked for); [isRequestJWT] likewise with
    [Bearer].  Later values of a repeated header are not looked at. *)
Theorem header_predicates_iff (r : http_Request) :
  (isRequestSignatureV4 r = true <->
   exists rest vs,
     Header r !! "Authorization"%string
       = Some (("AWS4-HMAC-SHA256" +:+ rest)%string :: vs)) /\
  (isRequestJWT r = true <->
   exists rest vs,
     Header r !! "Authorization"%string = Some (("Bearer" +:+ rest)%string :: vs)).
Proof.
  split.
  - apply (header_prefix_iff (Header r) "Authorization" "A"%char "WS4-HMAC-SHA256").
  - apply (header_prefix_iff (Header r) "Authorization" "B"%char "earer").
Qed.

(** X3.  [isRequestPostPolicySignatureV4] holds exactly when the method is
    [POST] (in capitals) and the first [Content-Type] value contains
    [multipart/form-data] at any position. *)
Theorem isRequestPostPolicySignatureV4_iff (r : http_Request) :
  isRequestPostPolicySignatureV4 r = true <->
  Method r = "POST"%string /\
  exists before after vs,
    Header r !! "Content-Type"%string
      = Some ((before +:+ "multipart/form-data" +:+ after)%string :: vs).
Proof.
  unfold isRequestPostPolicySignatureV4, has_key, Header_Get.
  destruct (Header r !! "Content-Type"%string) as [[|v vs]|].
  - simpl. split; [discriminate | intros (_ & b & a & vs & E); discriminate].
  - destruct (Contains v "multipart/form-data") eqn:Hc; simpl.
    + apply Contains_iff in Hc as (before & after & ->).
      destruct (String.eqb_spec (Method r) "POST") as [Hm|Hm].
      * split; [intros _; split; [exact Hm | exists before, after, vs; reflexivity]
               | reflexivity].
      * split; [discriminate | intros [Hm' _]; contradiction].
    + split; [discriminate|]. intros (_ & before & after & vs' & E).
      injection E as -> ->.
      assert (Contains (before +:+ "multipart/form-data" +:+ after) "multipart/form-data"
              = true) as Hc'
        by (apply Contains_iff; exists before, after; reflexivity).
      congruence.
  - split; [discriminate | intros (_ & b & a & vs & E); discriminate].
Qed.

(** ** The classifier, inverted *)

Lemma no_key_no_header_scheme (r : http_Request) :
  has_key (Header r) "Authorization" = false ->
  isRequestSignatureV4 r = false /\ isRequestJWT r = false.
Proof.
  intros Hk. apply no_authorization_no_header_scheme, has_key_false, Hk.
Qed.

(** X4.  Each answer of the classifier determines the predicates:
    [Signed] exactly on a V4 header; [Presigned] exactly on a query
    credential without a V4 header; [JWT] exactly on a bearer header
    without a query credential; [PostPolicy] exactly on a form upload
    with none of the three; [Anonymous] exactly when the [Authorization]
    header is absent and there is neither a query credential nor a form
    upload; [Unknown] exactly when the header is present and none of the
    four predicates holds. *)
Theorem getRequestAuthType_inversion (r : http_Request) :
  (getRequestAuthType r = authTypeSigned <-> isRequestSignatureV4 r = true) /\
  (getRequestAuthType r = authTypePresigned <->
   isRequestSignatureV4 r = false /\ isRequestPresignedSignatureV4 r = true) /\
  (getRequestAuthType r = authTypeJWT <->
   isRequestJWT r = true /\ isRequestPresignedSignatureV4 r = false) /\
  (getRequestAuthType r = authTypePostPolicy <->
   isRequestPostPolicySignatureV4 r = true /\ isRequestSignatureV4 r = false /\
   isRequestPresignedSignatureV4 r = false /\ isRequestJWT r = false) /\
  (getRequestAuthType r = authTypeAnonymous <->
   has_key (Header r) "Authorization" = false /\
   isRequestPresignedSignatureV4 r = false /\
   isRequestPostPolicySignatureV4 r = false) /\
  (getRequestAuthType r = authTypeUnknown <->
   has_key (Header r) "Authorization" = true /\
   isRequestSignatureV4 r = false /\ isRequestPresignedSignatureV4 r = false /\
   isRequestJWT r = false /\ isRequestPostPolicySignatureV4 r = false).
Proof.
  pose proof (jwt_excludes_v4 r) as Hex.
  pose proof (no_key_no_header_scheme r) as Hno.
  unfold getRequestAuthType.
  destruct (isRequestSignatureV4 r), (isRequestPresignedSignatureV4 r),
    (isRequestJWT r), (isRequestPostPolicySignatureV4 r),
    (has_key (Header r) "Authorization");
    simpl in *; try (specialize (Hex eq_refl); discriminate Hex);
    try (destruct (Hno eq_refl) as [? ?]; discriminate);
    repeat split; intros; try discriminate; try tauto; intuition discriminate.
Qed.

(** X5.  [isRequestAnonymous] holds exactly when the classifier answers
    [Anonymous] or [Unknown]: the two functions differ on the requests
    whose [Authorization] header is present but of no recognised shape. *)
Theorem isRequestAnonymous_iff (r : http_Request) :
  isRequestAnonymous r = true <->
  getRequestAuthType r = authTypeAnonymous \/ getRequestAuthType r = authTypeUnknown.
Proof.
  unfold isRequestAnonymous, getRequestAuthType.
  destruct (isRequestJWT r), (isRequestSignatureV4 r),
    (isRequestPresignedSignatureV4 r), (isRequestPostPolicySignatureV4 r),
    (has_key (Header r) "Authorization"); simpl;
    split; intros; try discriminate; try tauto; intuition discriminate.
Qed.

Lemma firstValue_has_key (m1 m2 : gmap string (list string)) (key : string) :
  firstValue m1 key = firstValue m2 key ->
  has_key m1 key = has_key m2 key /\ Header_Get m1 key = Header_Get m2 key.
Proof.
  unfold firstValue, has_key, Header_Get.
  destruct (m1 !! key) as [[|v1 l1]|], (m2 !! key) as [[|v2 l2]|]; simpl;
    intros E; try discriminate; split; congruence.
Qed.

(** X6.  The classifier and [isRequestAnonymous] read four things only:
    the method, the presence and first value of [Authorization], the
    presence and first value of [Content-Type], and the presence of
    [X-Amz-Credential].  Two requests that agree on them get the same
    answers, whatever their bodies, paths, other headers, further values
    and query values. *)
Theorem classification_reads_only (r1 r2 : http_Request) :
  Method r1 = Method r2 ->
  firstValue (Header r1) "Authorization" = firstValue (Header r2) "Authorization" ->
  firstValue (Header r1) "Content-Type" = firstValue (Header r2) "Content-Type" ->
  (is_Some (Query (URL r1) !! "X-Amz-Credential"%string) <->
   is_Some (Query (URL r2) !! "X-Amz-Credential"%string)) ->
  getRequestAuthType r1 = getRequestAuthType r2 /\
  isRequestAnonymous r1 = isRequestAnonymous r2.
Proof.
  intros Hm Ha Hc Hq.
  destruct (firstValue_has_key _ _ _ Ha) as [Hka Hga].
  destruct (firstValue_has_key _ _ _ Hc) as [Hkc Hgc].
  assert (Hkq : has_key (Query (URL r1)) "X-Amz-Credential"
                = has_key (Query (URL r2)) "X-Amz-Credential").
  { destruct (has_key (Query (URL r2)) "X-Amz-Credential") eqn:E2.
    - apply has_key_true, Hq, has_key_true, E2.
    - apply has_key_false. apply has_key_false in E2.
      destruct (Query (URL r1) !! "X-Amz-Credential"%string) as [vs|] eqn:E1;
        [|reflexivity].
      destruct (proj1 Hq (ex_intro _ vs eq_refl)) as [vs' E]. congruence. }
  unfold isRequestAnonymous, getRequestAuthType, isRequestJWT, isRequestSignatureV4,
    isRequestPresignedSignatureV4, isRequestPostPolicySignatureV4.
  rewrite Hm, Hka, Hga, Hkc, Hgc, Hkq. split; reflexivity.
Qed.

Lemma classification_reads_only_witness :
  getRequestAuthType MoreSamples.reqFormA = getRequestAuthType MoreSamples.reqFormB /\
  isRequestAnonymous MoreSamples.reqFormA = isRequestAnonymous MoreSamples.reqFormB.
Proof.
  apply (classification_reads_only MoreSamples.reqFormA MoreSamples.reqFormB).
  - reflexivity.
  - vm_compute. reflexivity.
  - vm_compute. reflexivity.
  - split; intros [vs E]; vm_compute in E; discriminate.
Defined.

(** ** The middleware, over all requests *)

Lemma forward_types_cases (t : authType) :
  In t [authTypeAnonymous; authTypePresigned; authTypeSigned; authTypePostPolicy] \/
  t = authTypeJWT \/ t = authTypeUnknown.
Proof. destruct t; simpl; tauto. Qed.

(** X7.  Every request gets exactly one outcome: the middleware either
    invokes the next handler once or rejects once (status 401 or the
    error response), never both and never neither.  It makes at most two
    calls, and none of them on the signature verifier: signed and
    presigned requests are forwarded unverified. *)
Theorem ServeHTTP_one_outcome jwt wer (a : authHandler) (r : http_Request)
    (w : ResponseWriter) :
  (handlerInvocations (calls (snd (serve (ServeHTTP jwt wer a r) w)))
   + length (List.filter isRejectCall (calls (snd (serve (ServeHTTP jwt wer a r) w))))
   = 1)%nat /\
  (length (calls (snd (serve (ServeHTTP jwt wer a r) w))) <= 2)%nat /\
  List.filter isSignCall (calls (snd (serve (ServeHTTP jwt wer a r) w))) = [].
Proof.
  destruct (forward_types_cases (getRequestAuthType r)) as [Hin | [Ht | Ht]].
  - rewrite (ServeHTTP_forward jwt wer a r w Hin). cbn. repeat split; lia.
  - rewrite (ServeHTTP_jwt jwt wer a r w Ht). destruct (jwt r); cbn; repeat split; lia.
  - rewrite (ServeHTTP_unknown jwt wer a r w Ht). cbn. repeat split; lia.
Qed.

(** X8.  The next handler is invoked exactly when the request is not
    classified as [Unknown] and, if it is classified as [JWT], the token
    verifier accepts it. *)
Theorem ServeHTTP_forwards_iff jwt wer (a : authHandler) (r : http_Request)
    (w : ResponseWriter) :
  handlerInvocations (calls (snd (serve (ServeHTTP jwt wer a r) w))) = 1%nat <->
  getRequestAuthType r <> authTypeUnknown /\
  (getRequestAuthType r = authTypeJWT -> jwt r = true).
Proof.
  destruct (forward_types_cases (getRequestAuthType r)) as [Hin | [Ht | Ht]].
  - rewrite (ServeHTTP_forward jwt wer a r w Hin). cbn.
    split; [intros _ | reflexivity].
    destruct (getRequestAuthType r); simpl in Hin;
      split; try discriminate; intuition discriminate.
  - rewrite (ServeHTTP_jwt jwt wer a r w Ht). rewrite Ht.
    destruct (jwt r); cbn.
    + split; [intros _; split; [discriminate | reflexivity] | reflexivity].
    + split; [discriminate | intros [_ Hj]; specialize (Hj eq_refl); discriminate].
  - rewrite (ServeHTTP_unknown jwt wer a r w Ht). rewrite Ht. cbn.
    split; [discriminate | intros [Hne _]; contradiction].
Qed.

(** X9.  A request that carries an [X-Amz-Credential] query parameter is
    always forwarded, with no call but the one to the next handler: the
    token verifier is not asked even when the request also carries a
    bearer token, and an unrecognised [Authorization] header is not
    rejected. *)
Theorem ServeHTTP_query_credential_forwards jwt wer (a : authHandler)
    (r : http_Request) (w : ResponseWriter) :
  is_Some (Query (URL r) !! "X-Amz-Credential"%string) ->
  serve (ServeHTTP jwt wer a r) w =
    (tt, {| writer := handler a w r; calls := [CallHandlerServeHTTP r] |}).
Proof.
  intros Hq. apply ServeHTTP_forward.
  unfold getRequestAuthType, isRequestPresignedSignatureV4.
  replace (has_key (Query (URL r)) "X-Amz-Credential") with true
    by (symmetry; apply has_key_true; exact Hq).
  destruct (isRequestSignatureV4 r); simpl; tauto.
Qed.

Lemma ServeHTTP_query_credential_forwards_witness :
  isRequestJWT MoreSamples.reqBearerWithQuery = true /\
  serve (ServeHTTP Samples.rejectAll Samples.plainErrorResponse
           (setAuthHandler Samples.okHandler) MoreSamples.reqBearerWithQuery) freshWriter =
    (tt, {| writer := Samples.okHandler freshWriter MoreSamples.reqBearerWithQuery;
            calls := [CallHandlerServeHTTP MoreSamples.reqBearerWithQuery] |}).
Proof.
  split; [vm_compute; reflexivity|].
  apply (ServeHTTP_query_credential_forwards Samples.rejectAll Samples.plainErrorResponse
           (setAuthHandler Samples.okHandler) MoreSamples.reqBearerWithQuery freshWriter).
  exists ["AKIDEXAMPLE/20150830/us-east-1/s3/aws4_request"%string].
  vm_compute. reflexivity.
Defined.

(** X10.  A request without an [Authorization] header is never rejected:
    it is forwarded with no call but the one to the next handler. *)
Theorem ServeHTTP_no_authorization_forwards jwt wer (a : authHandler)
    (r : http_Request) (w : ResponseWriter) :
  Header r !! "Authorization"%string = Datatypes.None ->
  serve (ServeHTTP jwt wer a r) w =
    (tt, {| writer := handler a w r; calls := [CallHandlerServeHTTP r] |}).
Proof.
  intros Hauth. apply ServeHTTP_forward.
  destruct (no_authorization_no_header_scheme r Hauth) as [Hv4 Hjwt].
  unfold getRequestAuthType. rewrite Hv4, Hjwt.
  replace (has_key (Header r) "Authorization") with false
    by (symmetry; apply has_key_false; exact Hauth).
  destruct (isRequestPresignedSignatureV4 r), (isRequestPostPolicySignatureV4 r);
    simpl; tauto.
Qed.

Lemma ServeHTTP_no_authorization_forwards_witness :
  serve (ServeHTTP Samples.rejectAll Samples.plainErrorResponse
           (setAuthHandler Samples.okHandler) Samples.reqPlain) freshWriter =
    (tt, {| writer := Samples.okHandler freshWriter Samples.reqPlain;
            calls := [CallHandlerServeHTTP Samples.reqPlain] |}).
Proof.
  apply (ServeHTTP_no_authorization_forwards Samples.rejectAll Samples.plainErrorResponse
           (setAuthHandler Samples.okHandler) Samples.reqPlain freshWriter).
  vm_compute. reflexivity.
Defined.

(** X11.  A bearer request without a query credential cannot get round
    the token check, whatever its method and other headers (a form
    upload included): the token verifier is the first call, and the next
    handler is invoked exactly when it accepts. *)
Theorem ServeHTTP_bearer_gate jwt wer (a : authHandler) (r : http_Request)
    (w : ResponseWriter) (rest : string) (vs : list string) :
  Header r !! "Authorization"%string = Some (("Bearer" +:+ rest)%string :: vs) ->
  Query (URL r) !! "X-Amz-Credential"%string = Datatypes.None ->
  head (calls (snd (serve (ServeHTTP jwt wer a r) w))) = Some (CallIsJWTReqAuthenticated r) /\
  (handlerInvocations (calls (snd (serve (ServeHTTP jwt wer a r) w))) = 1%nat <->
   jwt r = true).
Proof.
  intros Hauth Hq.
  assert (Hj : isRequestJWT r = true).
  { apply (header_prefix_iff (Header r) "Authorization" "B"%char "earer").
    exists rest, vs. exact Hauth. }
  assert (Ht : getRequestAuthType r = authTypeJWT).
  { unfold getRequestAuthType, isRequestPresignedSignatureV4, has_key.
    rewrite (jwt_excludes_v4 r Hj), Hq, Hj. reflexivity. }
  rewrite (ServeHTTP_jwt jwt wer a r w Ht).
  destruct (jwt r); cbn; split; try reflexivity; split; congruence.
Qed.

Lemma ServeHTTP_bearer_gate_witness :
  head (calls (snd (serve (ServeHTTP Samples.acceptAll Samples.plainErrorResponse
                             (setAuthHandler Samples.okHandler) Samples.reqBearer)
                          freshWriter)))
    = Some (CallIsJWTReqAuthenticated Samples.reqBearer).
Proof.
  apply (ServeHTTP_bearer_gate Samples.acceptAll Samples.plainErrorResponse
           (setAuthHandler Samples.okHandler) Samples.reqBearer freshWriter
           " abc.def.ghi" []); vm_compute; reflexivity.
Defined.

(** X12.  Wrapping a handler in the middleware twice leaves the same
    response as wrapping it once (the token verifier being a function of
    the request). *)
Theorem setAuthHandler_twice jwt wer (h : http_Handler) (w : ResponseWriter)
    (r : http_Request) :
  authHandler_asHandler jwt wer
    (setAuthHandler (authHandler_asHandler jwt wer (setAuthHandler h))) w r
  = authHandler_asHandler jwt wer (setAuthHandler h) w r.
Proof.
  unfold authHandler_asHandler at 1.
  destruct (forward_types_cases (getRequestAuthType r)) as [Hin | [Ht | Ht]].
  - rewrite (ServeHTTP_forward jwt wer _ r w Hin). reflexivity.
  - rewrite (ServeHTTP_jwt jwt wer _ r w Ht).
    unfold authHandler_asHandler.
    rewrite (ServeHTTP_jwt jwt wer (setAuthHandler h) r w Ht).
    destruct (jwt r) eqn:Hj; cbn [snd writer handler setAuthHandler].
    + rewrite (ServeHTTP_jwt jwt wer (setAuthHandler h) r w Ht), Hj. reflexivity.
    + reflexivity.
  - rewrite (ServeHTTP_unknown jwt wer _ r w Ht).
    unfold authHandler_asHandler.
    rewrite (ServeHTTP_unknown jwt wer (setAuthHandler h) r w Ht). reflexivity.
Qed.

(** ** Signature verification, over all requests *)

(** X13.  [isSignV4ReqAuthenticated] reports a match exactly when the
    verifier operation of the request's path answers [true] with no
    error: [DoesSignatureMatch] on the hash of the empty payload when the
    request has a V4 header, [DoesPresignedSignatureMatch] when it has
    only a query credential.  A [true] that comes with an error does not
    count, and a request on neither path never matches. *)
Theorem isSignV4ReqAuthenticated_match_iff {Sign : Type} `{SignatureVerifier Sign}
    (sign : Sign) (r : http_Request) (w : ResponseWriter) :
  fst (fst (serve (isSignV4ReqAuthenticated sign r) w)) = true <->
  (isRequestSignatureV4 r = true /\
   Sign_DoesSignatureMatch (Sign_SetHTTPRequestToVerify sign r)
     (hex.EncodeToString (sha256.Sum256 (bytes_of_string "")))
   = (true, Datatypes.None)) \/
  (isRequestSignatureV4 r = false /\ isRequestPresignedSignatureV4 r = true /\
   Sign_DoesPresignedSignatureMatch (Sign_SetHTTPRequestToVerify sign r)
   = (true, Datatypes.None)).
Proof.
  destruct (isRequestSignatureV4 r) eqn:Hv4;
    [|destruct (isRequestPresignedSignatureV4 r) eqn:Hpre].
  - rewrite (isSignV4ReqAuthenticated_signed sign r w Hv4).
    destruct (Sign_DoesSignatureMatch _ _) as [[|] [e|]]; cbn [fst];
      split; intros; try discriminate; try (left; split; reflexivity);
      intuition discriminate.
  - rewrite (isSignV4ReqAuthenticated_presigned sign r w Hv4 Hpre).
    destruct (Sign_DoesPresignedSignatureMatch _) as [[|] [e|]]; cbn [fst];
      split; intros; try discriminate; try (right; repeat split; reflexivity);
      intuition discriminate.
  - rewrite (isSignV4ReqAuthenticated_neither sign r w Hv4 Hpre). cbn [fst].
    split; [discriminate | intuition discriminate].
Qed.

Lemma isSignV4ReqAuthenticated_match_iff_witness :
  fst (fst (serve (isSignV4ReqAuthenticated MoreSamples.signMatchWithError
                     Samples.reqSigned) freshWriter)) = false /\
  fst (fst (serve (isSignV4ReqAuthenticated Samples.signMatching
                     Samples.reqBearer) freshWriter)) = false.
Proof.
  split.
  - destruct (fst (fst (serve (isSignV4ReqAuthenticated MoreSamples.signMatchWithError
                                 Samples.reqSigned) freshWriter))) eqn:E; [|reflexivity].
    apply (isSignV4ReqAuthenticated_match_iff MoreSamples.signMatchWithError
             Samples.reqSigned freshWriter) in E.
    destruct E as [[_ E] | [E _]]; [cbn in E | vm_compute in E]; discriminate.
  - destruct (fst (fst (serve (isSignV4ReqAuthenticated Samples.signMatching
                                 Samples.reqBearer) freshWriter))) eqn:E; [|reflexivity].
    apply (isSignV4ReqAuthenticated_match_iff Samples.signMatching
             Samples.reqBearer freshWriter) in E.
    destruct E as [[E _] | [_ [E _]]]; vm_compute in E; discriminate.
Defined.

(** X14.  The verifier is always handed the request first.  After that at
    most one signature-matching operation is called; the presigned one is
    called exactly when the request has a query credential and no V4
    header, so with both present only the header signature is checked. *)
Theorem isSignV4ReqAuthenticated_calls {Sign : Type} `{SignatureVerifier Sign}
    (sign : Sign) (r : http_Request) (w : ResponseWriter) :
  head (calls (snd (serve (isSignV4ReqAuthenticated sign r) w)))
    = Some (CallSetHTTPRequestToVerify r) /\
  (length (List.filter isSignatureMatchCall
             (calls (snd (serve (isSignV4ReqAuthenticated sign r) w)))) <= 1)%nat /\
  (In CallDoesPresignedSignatureMatch
      (calls (snd (serve (isSignV4ReqAuthenticated sign r) w))) <->
   isRequestSignatureV4 r = false /\ isRequestPresignedSignatureV4 r = true) /\
  ((exists h, In (CallDoesSignatureMatch h)
                 (calls (snd (serve (isSignV4ReqAuthenticated sign r) w)))) <->
   isRequestSignatureV4 r = true).
Proof.
  destruct (isRequestSignatureV4 r) eqn:Hv4;
    [|destruct (isRequestPresignedSignatureV4 r) eqn:Hpre].
  - rewrite (isSignV4ReqAuthenticated_signed sign r w Hv4). hide_hint.
    destruct (Sign_DoesSignatureMatch _ _) as [[|] [e|]]; cbn;
      (split; [reflexivity|]); (split; [lia|]);
      (split; [split; [intros Hin; intuition discriminate | intros [? _]; discriminate]|]);
      (split; [reflexivity | intros _; eexists; right; left; reflexivity]).
  - rewrite (isSignV4ReqAuthenticated_presigned sign r w Hv4 Hpre).
    destruct (Sign_DoesPresignedSignatureMatch _) as [[|] [e|]]; cbn;
      (split; [reflexivity|]); (split; [lia|]);
      (split; [split; [intros _; split; reflexivity | intros _; right; left; reflexivity]|]);
      (split; [intros [h Hin]; intuition discriminate | discriminate]).
  - rewrite (isSignV4ReqAuthenticated_neither sign r w Hv4 Hpre). cbn.
    split; [reflexivity|]. split; [lia|].
    split; [split; [intros Hin; intuition discriminate | intros [_ ?]; discriminate]|].
    split; [intros [h Hin]; intuition discriminate | discriminate].
Qed.


(** X16.  [isSignV4ReqAuthenticated] answers [AccessDenied] exactly on the
    requests the classifier does not call [Signed] or [Presigned]: bearer
    tokens, form uploads, anonymous and unrecognised requests are denied
    without a signature check. *)
Theorem isSignV4ReqAuthenticated_denied_iff {Sign : Type} `{SignatureVerifier Sign}
    (sign : Sign) (r : http_Request) (w : ResponseWriter) :
  snd (fst (serve (isSignV4ReqAuthenticated sign r) w)) = APIError.AccessDenied <->
  getRequestAuthType r <> authTypeSigned /\ getRequestAuthType r <> authTypePresigned.
Proof.
  destruct (isRequestSignatureV4 r) eqn:Hv4;
    [|destruct (isRequestPresignedSignatureV4 r) eqn:Hpre].
  - rewrite (isSignV4ReqAuthenticated_signed sign r w Hv4).
    unfold getRequestAuthType. rewrite Hv4.
    destruct (Sign_DoesSignatureMatch _ _) as [[|] [e|]]; cbn [fst snd];
      (split; [discriminate | intros [Hne _]; contradiction]).
  - rewrite (isSignV4ReqAuthenticated_presigned sign r w Hv4 Hpre).
    unfold getRequestAuthType. rewrite Hv4, Hpre.
    destruct (Sign_DoesPresignedSignatureMatch _) as [[|] [e|]]; cbn [fst snd];
      (split; [discriminate | intros [_ Hne]; contradiction]).
  - rewrite (isSignV4ReqAuthenticated_neither sign r w Hv4 Hpre). cbn [fst snd].
    unfold getRequestAuthType. rewrite Hv4, Hpre.
    split; [intros _ | reflexivity].
    destruct (isRequestJWT r), (isRequestPostPolicySignatureV4 r),
      (negb (has_key (Header r) "Authorization")); split; discriminate.
Qed.
